(** * satkit: 3D/4D ultrasound ingestion (satkit/io/ThreeD_ultrasound.py)

    A shallow embedding of the DICOM volume decode, the session-notes
    parse, the recording constructor and its metadata merge, and of the
    exclusion list (satkit/configuration/exclusion_list.py), followed by
    the properties established about them.  The coordinate helper
    (satkit/helpers/computational.py), the boundary animator
    (satkit/gui/boundary_animation.py) and the cursor of the annotator
    window (satkit/qt_3d_annotator.py) are embedded as well. *)

From Stdlib Require Import ZArith List Lia Ascii String.
From stdpp Require Import base option list gmap strings.

Open Scope string_scope.
Open Scope list_scope.
Open Scope nat_scope.

(** ** Python outcomes

    A call either returns a value or raises.  Only the exception classes
    the embedded code can raise are listed. *)
Module Py.

Inductive exn : Type :=
| TypeError
| ValueError
| IndexError
| OverflowError
| KeyError (key : string)
| AttributeError (name : string)
| NotImplementedError
| OSError
| DuplicateModality
| SystemExit.

Inductive result (T : Type) : Type :=
| Ok (v : T)
| Raise (e : exn).
Arguments Ok {T} v.
Arguments Raise {T} e.

Definition bind {T U : Type} (m : result T) (k : T -> result U) : result U :=
  match m with
  | Ok v => k v
  | Raise e => Raise e
  end.

(** [l[i]] on a Python list. *)
Definition getitem {T : Type} (l : list T) (i : nat) : result T :=
  match l !! i with
  | Some v => Ok v
  | None => Raise IndexError
  end.

End Py.
Export Py.

#[global] Instance result_ret : MRet result := fun T v => Ok v.
#[global] Instance result_bind : MBind result := fun T U k m => Py.bind m k.

(** ** The part of numpy the decoder uses

    An array is its shape together with its elements in C order (last
    axis fastest), which is the order [np.frombuffer] and an assignment
    to [.shape] work in.  The operations move elements without looking at
    them, so the element type is a parameter.  Axis lengths and offsets
    are unbounded naturals: the int64 of numpy does not wrap around for
    a buffer that fits in memory. *)
Module np.

Record ndarray (T : Type) : Type := mk_ndarray {
  shape : list nat;
  flat : list T
}.
Arguments mk_ndarray {T} shape flat.
Arguments shape {T} n.
Arguments flat {T} n.

(** [np.prod] of a list of axis lengths. *)
Definition prod (shp : list nat) : nat := foldr Nat.mul 1 shp.

(** Offset of a multi-index in C order, and its inverse. *)
Fixpoint ravel (shp idx : list nat) : nat :=
  match shp, idx with
  | _ :: shp', i :: idx' => i * prod shp' + ravel shp' idx'
  | _, _ => 0
  end.

Fixpoint unravel (shp : list nat) (m : nat) : list nat :=
  match shp with
  | [] => []
  | _ :: shp' => m / prod shp' :: unravel shp' (m mod prod shp')
  end.

(** [a[idx]] for a full multi-index. *)
Definition item {T : Type} (a : ndarray T) (idx : list nat) : option T :=
  if decide (Forall2 lt idx (shape a)) then flat a !! ravel (shape a) idx
  else None.

(** Elements of [l] at the offsets [offs], in that order. *)
Definition gather {T : Type} (offs : list nat) (l : list T) : list T :=
  omap (fun i => l !! i) offs.

Definition frombuffer {T : Type} (buf : list T) : ndarray T :=
  mk_ndarray [length buf] buf.

(** [a.shape = new]: the elements stay, the axis lengths change; numpy
    refuses a shape whose size is not the number of elements.  A negative
    length is refused here as well (numpy would take a single -1 as
    "infer this axis"; the decoder never passes one, see
    [rows_nonneg]). *)
Definition set_shape {T : Type} (new : list Z) (a : ndarray T)
  : result (ndarray T) :=
  if forallb (Z.leb 0) new then
    let shp := Z.to_nat <$> new in
    if prod shp =? length (flat a) then Ok (mk_ndarray shp (flat a))
    else Raise ValueError
  else Raise ValueError.

Definition arange (n : nat) : ndarray nat := mk_ndarray [n] (seq 0 n).

(** [numpy.matlib.repmat(a, m, n)] of a one-dimensional [a]: [m] by [n]
    copies of the row [a]. *)
Definition repmat {T : Type} (a : ndarray T) (m n : nat) : ndarray T :=
  mk_ndarray [m; n * length (flat a)]
             (concat (replicate m (concat (replicate n (flat a))))).

(** [np.transpose(a)] without an axes argument reverses the order of all
    axes: the result at [idx] is [a] at [reverse idx]. *)
Definition transpose {T : Type} (a : ndarray T) : ndarray T :=
  let shp := reverse (shape a) in
  mk_ndarray shp
    (gather ((fun m => ravel (shape a) (reverse (unravel shp m)))
               <$> seq 0 (prod shp))
            (flat a)).

(** [np.take_along_axis(arr, indices, axis=0)] on two-dimensional arrays
    with the same second axis: the result has the shape of [indices] and
    holds [arr[indices[r, c], c]] at [(r, c)]; an index that is not a row
    of [arr] raises IndexError. *)
Definition take_along_axis0 {T : Type} (arr : ndarray T) (indices : ndarray nat)
  : result (ndarray T) :=
  match shape arr, shape indices with
  | [rows; cols], [rows'; cols'] =>
      if decide (cols = cols') then
        match mapM (fun m =>
                      i ← flat indices !! m;
                      if decide (i < rows) then flat arr !! (i * cols + m mod cols)
                      else None)
                   (seq 0 (rows' * cols')) with
        | Some l => Ok (mk_ndarray [rows'; cols'] l)
        | None => Raise IndexError
        end
      else Raise IndexError
  | _, _ => Raise ValueError
  end.

(** Shape and elements agree. *)
Definition well_formed {T : Type} (a : ndarray T) : Prop :=
  length (flat a) = prod (shape a).

End np.

(** ** Binary64 numbers

    Frame rate, scale factors and time stamps are IEEE binary64 values.
    The decoder stores them and hands them to numpy; their arithmetic is
    kept behind this interface.  [time_axis n fps off] stands for
    [np.linspace(0, n, num=n, endpoint=False) / fps + off]. *)
Class Float64 : Type := {
  float64 : Type;
  time_axis : nat -> float64 -> float64 -> list float64
}.

(** ** The part of pydicom the decoder uses *)
Module pydicom.

(** A data element, with the attributes that hold strings.  The class
    [DataElement] of pydicom has no [__getattr__] fallback, so a name
    that is not an attribute of it raises AttributeError. *)
Record DataElement : Type := mk_DataElement {
  VR : string;
  value : string
}.

Definition getattr (e : DataElement) (name : string) : result string :=
  if decide (name = "value") then Ok (value e)
  else if decide (name = "VR") then Ok (VR e)
  else Raise (AttributeError name).

(** Item 0 of the sequence (200d,3020) inside item 1 of (200d,3016). *)
Record UltraSequence (T : Type) : Type := mk_UltraSequence {
  tag_200d_3010 : nat;        (* number of frames *)
  tag_200d_300e : list T      (* the raw sample bytes *)
}.
Arguments mk_UltraSequence {T} _ _.
Arguments tag_200d_3010 {T} u.
Arguments tag_200d_300e {T} u.

Record Dataset `{Float64} (T : Type) : Type := mk_Dataset {
  SequenceOfUltrasoundRegions : nat;   (* only its length is read *)
  tag_200d_300d : DataElement;         (* sub-type of the sequence *)
  tag_200d_3301 : list nat;            (* declared inner dimensions *)
  tag_200d_3303 : list float64;        (* real-space scale factors *)
  tag_200d_3207 : float64;             (* frames per second *)
  tag_200d_3020 : UltraSequence T
}.
Arguments mk_Dataset {_ T} _ _ _ _ _ _.
Arguments SequenceOfUltrasoundRegions {_ T} d.
Arguments tag_200d_300d {_ T} d.
Arguments tag_200d_3301 {_ T} d.
Arguments tag_200d_3303 {_ T} d.
Arguments tag_200d_3207 {_ T} d.
Arguments tag_200d_3020 {_ T} d.

End pydicom.

(** ** class ThreeD_Ultrasound *)
Module ThreeD_Ultrasound.
Import np pydicom.

(** The attributes of a [ThreeD_Ultrasound] object that the class itself
    reads or writes; [None] is an attribute or [meta] key not set yet. *)
Record t `{Float64} (T : Type) : Type := mk {
  meta_filename : option string;
  meta_FramesPerSec : option float64;
  meta_no_frames : option nat;
  meta_NumVectors : option nat;
  meta_PixPerVector : option nat;
  _scale : option (list float64);
  _data : option (ndarray T);
  timevector : option (list float64);
  timeOffset : float64
}.
Arguments mk {_ T} _ _ _ _ _ _ _ _ _.
Arguments meta_filename {_ T} t.
Arguments meta_FramesPerSec {_ T} t.
Arguments meta_no_frames {_ T} t.
Arguments meta_NumVectors {_ T} t.
Arguments meta_PixPerVector {_ T} t.
Arguments _scale {_ T} t.
Arguments _data {_ T} t.
Arguments timevector {_ T} t.
Arguments timeOffset {_ T} t.

Section Modality.
Context `{Float64} {T : Type}.

(** [int(interval / shape[3])]: true division of an integer by an
    integer, then truncation towards zero.  Division by zero gives an
    infinity or a NaN, which [int] refuses.  (For operands below 2^53
    the binary64 quotient truncates to the exact integer quotient.) *)
Definition int_truediv (x n : Z) : result Z :=
  if decide (n = 0)%Z then
    if decide (x = 0)%Z then Raise ValueError else Raise OverflowError
  else Ok (Z.quot x n).

Definition _read_3D_ultra (self : t T) (ds : Dataset T) : result (t T) :=
  let ultra_sequence := tag_200d_3020 ds in
  (* data dimensions *)
  let numberOfFrames := tag_200d_3010 ultra_sequence in
  let shape := tag_200d_3301 ds in
  let frameSize := prod shape in
  let shape := shape ++ [numberOfFrames] in
  (* data scale in real space-time *)
  let scale := tag_200d_3303 ds in
  let self := mk (meta_filename self) (Some (tag_200d_3207 ds))
                 (meta_no_frames self) (meta_NumVectors self)
                 (meta_PixPerVector self) (Some scale) (_data self)
                 (timevector self) (timeOffset self) in
  (* the number of junk data points between each frame *)
  shape3 ← getitem shape 3;
  let interval :=
    (Z.of_nat (length (tag_200d_300e ultra_sequence))
     - Z.of_nat frameSize * Z.of_nat shape3)%Z in
  shape3 ← getitem shape 3;
  interval ← int_truediv interval (Z.of_nat shape3);
  let data := frombuffer (tag_200d_300e ultra_sequence) in
  data ← set_shape [(Z.of_nat frameSize + interval)%Z; Z.of_nat numberOfFrames]
                   data;
  let index := transpose (repmat (arange frameSize) numberOfFrames 1) in
  data ← take_along_axis0 data index;
  data ← set_shape (Z.of_nat <$> shape) data;
  Ok (mk (meta_filename self) (meta_FramesPerSec self)
         (meta_no_frames self) (meta_NumVectors self)
         (meta_PixPerVector self) (_scale self)
         (Some (transpose data))
         (timevector self) (timeOffset self)).

(** Modelled from the spec: the getter of [data] in the base class
    MatrixData (satkit/recording.py is not among the sources), which
    hands out the tensor once it is loaded. *)
Definition data (self : t T) : option (ndarray T) := _data self.

(** [self.data.shape] *)
Definition data_shape (self : t T) : result (list nat) :=
  match data self with
  | Some d => Ok (shape d)
  | None => Raise (AttributeError "shape")
  end.

(** [_getData]: read the DICOM file named in [meta], check its layout,
    decode the volume and derive the frame count and the time vector.
    [dcmread] is the file system as pydicom sees it. *)
Definition _getData (dcmread : string -> result (Dataset T)) (self : t T)
  : result (t T) :=
  filename ← match meta_filename self with
             | Some f => Ok f
             | None => Raise TypeError
             end;
  ds ← dcmread filename;
  (* There are other options, but we don't deal with them just yet. *)
  self ← (if SequenceOfUltrasoundRegions ds =? 3 then
            type ← getattr (tag_200d_300d ds) "valuex";
            if decide (type = "UDM_USD_DATATYPE_DIN_3D_ECHO")
            then _read_3D_ultra self ds
            else Raise SystemExit
          else Raise SystemExit);
  no_frames ← data_shape self ≫= (fun shp => getitem shp 0);
  NumVectors ← data_shape self ≫= (fun shp => getitem shp 1);
  PixPerVector ← data_shape self ≫= (fun shp => getitem shp 2);
  FramesPerSec ← match meta_FramesPerSec self with
                 | Some fps => Ok fps
                 | None => Raise (KeyError "FramesPerSec")
                 end;
  Ok (mk (meta_filename self) (meta_FramesPerSec self)
         (Some no_frames) (Some NumVectors) (Some PixPerVector)
         (_scale self) (_data self)
         (Some (time_axis no_frames FramesPerSec (timeOffset self)))
         (timeOffset self)).

(** The constructor: [filename] and [preload] decide whether the volume
    is decoded at once. *)
Definition __init__ (dcmread : string -> result (Dataset T))
    (preload : bool) (timeOffset : float64) (filename : option string)
  : result (t T) :=
  let self := mk filename None None None None None None None timeOffset in
  match filename with
  | Some f => if bool_decide (f <> "") && preload then _getData dcmread self
              else Ok self
  | None => Ok self
  end.

(** The setter of the [data] property: anything but [None] is refused. *)
Definition data_setter (self : t T) (data : option (ndarray T))
  : result (t T) :=
  match data with
  | Some _ => Raise NotImplementedError
  | None =>
      Ok (mk (meta_filename self) (meta_FramesPerSec self)
             (meta_no_frames self) (meta_NumVectors self)
             (meta_PixPerVector self) (_scale self) None
             (timevector self) (timeOffset self))
  end.

(** The state a successful [_read_3D_ultra] leaves behind. *)
Definition loaded (self : t T) (ds : Dataset T) (data : ndarray T) : t T :=
  mk (meta_filename self) (Some (tag_200d_3207 ds))
     (meta_no_frames self) (meta_NumVectors self) (meta_PixPerVector self)
     (Some (tag_200d_3303 ds)) (Some data) (timevector self) (timeOffset self).

End Modality.
End ThreeD_Ultrasound.

(** ** Library functions and the file system

    What the ingestion code takes from the standard library and from
    the rest of satkit is gathered here.  [strptime s] stands for
    [datetime.strptime(s, "%d-%b-%Y %H:%M:%S")], with [None] for its
    ValueError; [PureWindowsPath_name s] for [PureWindowsPath(s).name];
    [Path_name s] for [Path(s).name]; [LipVideo] for the objects of the
    class of that name in satkit/io/AAA_video.py. *)
Class Libs : Type := {
  datetime : Type;
  datetime_ltb : datetime -> datetime -> bool;
  strptime : string -> option datetime;
  PureWindowsPath_name : string -> string;
  Path_name : string -> string;
  os_path_join : string -> string -> string;
  LipVideo : Type
}.

(** The objects found in [meta] dictionaries and in session notes. *)
Inductive pyvalue `{Libs} : Type :=
| VNone
| VBool (b : bool)
| VInt (z : Z)
| VStr (s : string)
| VDate (d : datetime).

(** Truth value of an object in a condition. *)
Definition truthy `{Libs} (v : pyvalue) : bool :=
  match v with
  | VNone => false
  | VBool b => b
  | VInt z => negb (z =? 0)%Z
  | VStr s => negb (String.eqb s "")
  | VDate _ => true
  end.

(** A directory argument is a [str] or a [pathlib.Path]. *)
Inductive pathlike : Type :=
| PStr (s : string)
| PPath (s : string).

Definition fspath (p : pathlike) : string :=
  match p with
  | PStr s => s
  | PPath s => s
  end.

(** [p / name] is defined on paths only. *)
Definition truediv `{Libs} (p : pathlike) (name : string) : result pathlike :=
  match p with
  | PPath s => Ok (PPath (os_path_join s name))
  | PStr _ => Raise TypeError
  end.

(** An operand of [+] between strings has to be a [str] itself. *)
Definition str_operand (p : pathlike) : result string :=
  match p with
  | PStr s => Ok s
  | PPath _ => Raise TypeError
  end.

(** What iteration accepts: a list, or a generator such as the one
    [Path.glob] returns.  Only a list can be subscripted. *)
Inductive iterable (X : Type) : Type :=
| PyList (items : list X)
| Generator (items : list X).
Arguments PyList {X} items.
Arguments Generator {X} items.

Definition items_of {X : Type} (it : iterable X) : list X :=
  match it with
  | PyList l => l
  | Generator l => l
  end.

Definition subscript {X : Type} (it : iterable X) (i : nat) : result X :=
  match it with
  | PyList l => getitem l i
  | Generator _ => Raise TypeError
  end.

Record filesystem `{Float64} `{Libs} (T : Type) : Type := mk_filesystem {
  isfile : string -> bool;
  (* the paths in a directory that match a pattern, in sorted order *)
  glob_sorted : string -> string -> list string;
  dcmread : string -> result (pydicom.Dataset T);
  (* mat['officialNotes'] of scipy.io.loadmat, every element after .item() *)
  loadmat_officialNotes : string -> result (list (list pyvalue));
  (* the rows csv.reader(delimiter='\t') yields for a file *)
  read_tsv : string -> result (list (list string))
}.
Arguments mk_filesystem {_ _ T} _ _ _ _ _.
Arguments isfile {_ _ T} f _.
Arguments glob_sorted {_ _ T} f _ _.
Arguments dcmread {_ _ T} f _.
Arguments loadmat_officialNotes {_ _ T} f _.
Arguments read_tsv {_ _ T} f _.

(** [Path.glob]: a generator over the matching paths. *)
Definition Path_glob `{Float64} `{Libs} {T : Type} (fs : filesystem T)
    (dir : pathlike) (pattern : string) : iterable pathlike :=
  Generator (PPath <$> glob_sorted fs (fspath dir) pattern).

(** ** class Recording *)
Module Recording.

Inductive modality `{Float64} `{Libs} (T : Type) : Type :=
| Ultrasound (u : ThreeD_Ultrasound.t T)
| Video (v : LipVideo).
Arguments Ultrasound {_ _ T} u.
Arguments Video {_ _ T} v.

Record t `{Float64} `{Libs} (T : Type) : Type := mk {
  excluded : bool;
  path : pathlike;
  basename : string;
  meta : gmap string pyvalue;
  modalities : gmap string (modality T)
}.
Arguments mk {_ _ T} _ _ _ _ _.
Arguments excluded {_ _ T} t.
Arguments path {_ _ T} t.
Arguments basename {_ _ T} t.
Arguments meta {_ _ T} t.
Arguments modalities {_ _ T} t.

Section Base.
Context `{Float64} `{Libs} {T : Type}.

Definition set_excluded (b : bool) (self : t T) : t T :=
  mk b (path self) (basename self) (meta self) (modalities self).

Definition set_meta (key : string) (v : pyvalue) (self : t T) : t T :=
  mk (excluded self) (path self) (basename self) (<[key := v]> (meta self))
     (modalities self).

(** [self.meta[key]] *)
Definition meta_getitem (self : t T) (key : string) : result pyvalue :=
  match meta self !! key with
  | Some v => Ok v
  | None => Raise (KeyError key)
  end.

(** Modelled from the spec: the constructor of class [Recording]
    (satkit/recording.py is not among the sources).  A new recording has
    its basename and path, is not excluded and has no modalities; the
    sources read the basename both as an attribute and as
    [meta['basename']], so it is recorded under both.  The annotations
    of a recording are not touched by the embedded code and left out. *)
Definition __init__ (path : pathlike) (basename : string) : t T :=
  mk false path basename {[ "basename" := VStr basename ]} ∅.

(** Modelled from the spec: [Recording.exclude] (absent as well), which
    "sets excluded=true irreversibly". *)
Definition exclude (self : t T) : t T := set_excluded true self.

(** Modelled from the spec: [Recording.addModality] (absent as well),
    which "fails with DuplicateModality if name already present" and
    otherwise stores the modality under its name. *)
Definition addModality (name : string) (m : modality T) (self : t T)
  : t T * result unit :=
  match modalities self !! name with
  | Some _ => (self, Raise DuplicateModality)
  | None =>
      (mk (excluded self) (path self) (basename self) (meta self)
          (<[name := m]> (modalities self)),
       Ok tt)
  end.

End Base.
End Recording.

(** ** class ThreeD_UltrasoundRecording *)
Module ThreeD_UltrasoundRecording.
Import Recording.

Definition requiredMetaKeys : list string :=
  ["trial_number"; "prompt"; "date_and_time"; "dat_file_name"].

(** What [addMeta] can be handed: [None], a dictionary, or the list of
    dictionaries that [readMetaFromMat] returns. *)
Inductive meta_arg `{Libs} : Type :=
| MetaNone
| MetaDict (d : gmap string pyvalue)
| MetaList (l : list (gmap string pyvalue)).

Section Methods.
Context `{Float64} `{Libs} {T : Type}.

(** [datetime.strptime(v, "%d-%b-%Y %H:%M:%S")] on a field of the notes. *)
Definition strptime_field (v : pyvalue) : result datetime :=
  match v with
  | VStr s => match strptime s with
              | Some d => Ok d
              | None => Raise ValueError
              end
  | _ => Raise TypeError
  end.

(** [PureWindowsPath(v).name] *)
Definition windows_name (v : pyvalue) : result string :=
  match v with
  | VStr s => Ok (PureWindowsPath_name s)
  | _ => Raise TypeError
  end.

(** The body of the loop of [readMetaFromMat]: the token appended for
    one element, if any.  Only ValueError is caught by the [try]. *)
Definition meta_token (element : list pyvalue)
  : result (option (gmap string pyvalue)) :=
  if decide (5 < length element) then
    e4 ← getitem element 4;
    '(date_and_time, file_path) ←
      match strptime_field e4 with
      | Ok d => e5 ← getitem element 5; Ok (d, e5)
      | Raise ValueError =>
          e5 ← getitem element 5;
          d ← strptime_field e5;
          e4 ← getitem element 4;
          Ok (d, e4)
      | Raise e => Raise e
      end;
    e0 ← getitem element 0;
    e1 ← getitem element 1;
    name ← windows_name file_path;
    Ok (Some (<["trial_number" := e0]>
              (<["prompt" := e1]>
               (<["date_and_time" := VDate date_and_time]>
                {[ "dat_file_name" := VStr name ]}))))
  else Ok None.

Fixpoint meta_tokens (elements : list (list pyvalue))
  : result (list (gmap string pyvalue)) :=
  match elements with
  | [] => Ok []
  | element :: rest =>
      token ← meta_token element;
      tokens ← meta_tokens rest;
      Ok (match token with
          | Some d => d :: tokens
          | None => tokens
          end)
  end.

Definition readMetaFromMat (fs : filesystem T) (mat_file : pathlike)
  : result (list (gmap string pyvalue)) :=
  officialNotes ← loadmat_officialNotes fs (fspath mat_file);
  meta_tokens officialNotes.

(** The constructor: the three companion files are looked for one by
    one. *)
Definition __init__ (fs : filesystem T) (path : pathlike)
    (basename : string) (requireVideo : bool) : t T :=
  let self := Recording.__init__ path basename in
  (* Candidates for filenames. Existence tested below. *)
  let ult_wav_file := os_path_join (fspath path) (String.append basename ".wav") in
  let ult_file := os_path_join (fspath path) (String.append basename ".DCM") in
  let video_file := os_path_join (fspath path) (String.append basename ".avi") in
  let self :=
    if isfile fs ult_wav_file then
      set_meta "ult_wav_exists" (VBool true)
        (set_meta "ult_wav_file" (VStr ult_wav_file) self)
    else
      set_excluded true (set_meta "ult_wav_exists" (VBool false) self) in
  let self :=
    if isfile fs ult_file then
      set_meta "ult_exists" (VBool true)
        (set_meta "ult_file" (VStr ult_file) self)
    else
      set_excluded true (set_meta "ult_exists" (VBool false) self) in
  if isfile fs video_file then
    set_meta "video_exists" (VBool true)
      (set_meta "video_file" (VStr video_file) self)
  else
    let self := set_meta "video_exists" (VBool false) self in
    if requireVideo then set_excluded true self else self.

(** [{key: meta[key] for key in requiredMetaKeys}] on a dictionary;
    [None] is the KeyError of the first missing key. *)
Definition wanted_meta (d : gmap string pyvalue)
  : option (list (string * pyvalue)) :=
  mapM (fun key => v ← d !! key; Some (key, v)) requiredMetaKeys.

(** [self.meta.update(wanted)] *)
Definition update (wanted : list (string * pyvalue)) (m : gmap string pyvalue)
  : gmap string pyvalue :=
  foldl (fun m kv => <[kv.1 := kv.2]> m) m wanted.

(** [addMeta]: the recording after the call, and how the call ended.
    The handler of the KeyError reads [self.meta['filename']] for its
    message before it exits. *)
Definition addMeta (meta : meta_arg) (self : t T) : t T * result unit :=
  match meta with
  | MetaNone => (self, Ok tt)
  | MetaDict d =>
      match wanted_meta d with
      | Some wanted =>
          (mk (excluded self) (path self) (basename self)
              (update wanted (Recording.meta self)) (modalities self),
           Ok tt)
      | None =>
          (self,
           filename ← meta_getitem self "filename";
           match filename with
           | VStr _ => Raise SystemExit
           | _ => Raise TypeError
           end)
      end
  | MetaList _ =>
      (* a list is subscripted with the first required key *)
      (self, Raise TypeError)
  end.

End Methods.
End ThreeD_UltrasoundRecording.

(** ** Module-level functions of ThreeD_ultrasound.py *)
Section Module_functions.
Context `{Float64} `{Libs} {T : Type}.
Import Recording.

Definition generateUltrasoundRecording (fs : filesystem T)
    (basename : string) (directory : pathlike) : result (Recording.t T) :=
  (* the log message concatenates the directory *)
  _ ← str_operand directory;
  Ok (ThreeD_UltrasoundRecording.__init__ fs directory basename false).

(** [a < b] between two sort keys. *)
Definition value_lt (a b : pyvalue) : result bool :=
  match a, b with
  | VDate x, VDate y => Ok (datetime_ltb x y)
  | VStr x, VStr y => Ok (String.ltb x y)
  | VInt x, VInt y => Ok (x <? y)%Z
  | VBool x, VBool y => Ok (negb x && y)
  | _, _ => Raise TypeError
  end.

(** [sorted(l, key=...)] on keys computed beforehand: a stable sort that
    compares with [<] only. *)
Fixpoint insert_by_key {X : Type} (x : pyvalue * X) (l : list (pyvalue * X))
  : result (list (pyvalue * X)) :=
  match l with
  | [] => Ok [x]
  | y :: l' =>
      before ← value_lt y.1 x.1;
      if before : bool then
        rest ← insert_by_key x l';
        Ok (y :: rest)
      else Ok (x :: y :: l')
  end.

Fixpoint sort_by_key {X : Type} (l : list (pyvalue * X))
  : result (list (pyvalue * X)) :=
  match l with
  | [] => Ok []
  | x :: l' => sorted ← sort_by_key l'; insert_by_key x sorted
  end.

Fixpoint mapM_result {X Y : Type} (f : X -> result Y) (l : list X)
  : result (list Y) :=
  match l with
  | [] => Ok []
  | x :: l' => y ← f x; ys ← mapM_result f l'; Ok (y :: ys)
  end.

Definition generateRecordingList (fs : filesystem T) (directory : pathlike)
  : result (list (Recording.t T)) :=
  dicom_dir ← truediv directory "DCM";
  note_dir ← truediv directory "NOTES";
  let dicom_files := items_of (Path_glob fs dicom_dir "*.DCM") in
  mat_file ← subscript (Path_glob fs note_dir "*.mat") 0;
  let basenames := (fun filepath => Path_name (fspath filepath)) <$> dicom_files in
  recordings ←
    mapM_result (fun basename => generateUltrasoundRecording fs basename directory)
                basenames;
  meta ← ThreeD_UltrasoundRecording.readMetaFromMat fs mat_file;
  recordings ←
    mapM_result
      (fun recording : Recording.t T =>
         match ThreeD_UltrasoundRecording.addMeta
                 (ThreeD_UltrasoundRecording.MetaList meta) recording with
         | (recording, Ok _) => Ok recording
         | (_, Raise e) => Raise e
         end)
      recordings;
  keyed ←
    mapM_result (Y := pyvalue * Recording.t T)
      (fun token : Recording.t T =>
         key ← meta_getitem token "date"; Ok (key, token))
      recordings;
  sorted ← sort_by_key keyed;
  Ok (snd <$> (sorted : list (pyvalue * Recording.t T))).

(** [addModalities]: the recording after the call, and how the call
    ended.  [LipVideo_init] is the constructor of the video modality and
    [zero] the default time offset 0 of the ultrasound one. *)
Definition addModalities
    (fs : filesystem T)
    (LipVideo_init : bool -> pyvalue -> result LipVideo)
    (zero : float64)
    (wavPreload ultPreload videoPreload : bool)
    (recording : Recording.t T) : Recording.t T * result unit :=
  match meta_getitem recording "basename" with
  | Raise e => (recording, Raise e)
  | Ok _ =>
  match meta_getitem recording "ult_file" with
  | Raise e => (recording, Raise e)
  | Ok ult_file =>
  match (filename ← match ult_file with
                    | VStr s => Ok (Some s)
                    | VNone => Ok None
                    | _ => Raise TypeError
                    end;
         ThreeD_Ultrasound.__init__ (dcmread fs) ultPreload zero filename)
  with
  | Raise e => (recording, Raise e)
  | Ok ultrasound =>
  match addModality "ThreeD_Ultrasound" (Ultrasound ultrasound) recording with
  | (recording, Raise e) => (recording, Raise e)
  | (recording, Ok _) =>
  match meta_getitem recording "video_exists" with
  | Raise e => (recording, Raise e)
  | Ok video_exists =>
      if truthy video_exists then
        match meta_getitem recording "video_file" with
        | Raise e => (recording, Raise e)
        | Ok video_file =>
        match LipVideo_init videoPreload video_file with
        | Raise e => (recording, Raise e)
        | Ok video => addModality "LipVideo" (Video video) recording
        end
        end
      else (recording, Ok tt)
  end end end end end.

End Module_functions.

(** ** exclusion_list.py *)
Section Exclusion_list.
Context `{Float64} `{Libs} {T : Type}.
Import Recording.

(** [row[0] for row in reader if row] *)
Definition first_fields (rows : list (list string)) : list string :=
  omap (fun row => head row) rows.

(** [set_exclusions_from_file]: the recordings after the call, and how
    the call ended. *)
Definition set_exclusions_from_file (fs : filesystem T)
    (filename : option string) (recordings : list (Recording.t T))
  : list (Recording.t T) * result unit :=
  match (match filename with
         | Some name => rows ← read_tsv fs name; Ok (first_fields rows)
         | None => Ok []
         end) with
  | Raise e => (recordings, Raise e)
  | Ok exclusion_list =>
      ((fun recording =>
          if bool_decide (basename recording ∈ exclusion_list)
          then exclude recording else recording) <$> recordings,
       Ok tt)
  end.

End Exclusion_list.

(** ** Buffer layouts

    A byte of the raw buffer is either a sample of some frame or one of
    the junk bytes that trail it. *)
Inductive cell (T : Type) : Type :=
| Sample (b : T)
| Padding (b : T).
Arguments Sample {T} b.
Arguments Padding {T} b.


(** Every frame followed by its own padding. *)
Definition padded_frames {T : Type} (frames pads : list (list T))
  : list (list (cell T)) :=
  zip_with (fun fr pd => (Sample <$> fr) ++ (Padding <$> pd)) frames pads.


(** The decode errors of numpy that the specification calls
    [CorruptVolume]. *)
Definition CorruptVolume (e : exn) : Prop :=
  e = ValueError ∨ e = IndexError ∨ e = OverflowError.

(** ** Session-notes rows

    The record a row of the notes is turned into, and the same row with
    the fields 5 and 6 (positions 4 and 5) exchanged. *)
Section Rows.
Context `{Libs}.



End Rows.

(** ** The life of a recording

    The operations that act on a recording once it is built; a recording
    that sits in a list handed to [set_exclusions_from_file] is followed
    through that call at its position. *)
Inductive operation `{Float64} `{Libs} (T : Type) : Type :=
| Op_addMeta (meta : ThreeD_UltrasoundRecording.meta_arg)
| Op_addModalities (fs : filesystem T)
    (LipVideo_init : bool -> pyvalue -> result LipVideo)
    (zero : float64) (wavPreload ultPreload videoPreload : bool)
| Op_set_exclusions (fs : filesystem T) (filename : option string)
    (before after : list (Recording.t T)).
Arguments Op_addMeta {_ _ T} meta.
Arguments Op_addModalities {_ _ T} fs LipVideo_init zero _ _ _.
Arguments Op_set_exclusions {_ _ T} fs filename before after.

Section Lifetime_def.
Context `{Float64} `{Libs} {T : Type}.

Definition step (recording : Recording.t T) (op : operation T)
  : Recording.t T :=
  match op with
  | Op_addMeta meta => (ThreeD_UltrasoundRecording.addMeta meta recording).1
  | Op_addModalities fs LipVideo_init zero wav ult video =>
      (addModalities fs LipVideo_init zero wav ult video recording).1
  | Op_set_exclusions fs filename before after =>
      default recording
        ((set_exclusions_from_file fs filename
            (before ++ recording :: after)).1 !! length before)
  end.

Definition lifetime (ops : list (operation T)) (recording : Recording.t T)
  : Recording.t T :=
  foldl step recording ops.

End Lifetime_def.

(** ** exclusion_list.py, the reader *)
Section Exclusion_list_reader.
Context `{Float64} `{Libs} {T : Type}.

(** [read_file_exclusion_list]: the names read, or how the call ended.
    The comprehension has no [if row] here, so [row[0]] is evaluated on
    every row.  The message is handed to [Logger.info] with the keyword
    arguments [filename] and [length]; when the level INFO is enabled
    for the logger 'satkit.io' they reach [Logger._log], which has no
    such parameters ([info_enabled] is that setting). *)
Definition read_file_exclusion_list (fs : filesystem T) (info_enabled : bool)
    (filename : option string) : result (list string) :=
  match filename with
  | Some name =>
      rows ← read_tsv fs name;
      exclusion_list ← mapM_result (fun row => getitem row 0) rows;
      _ ← (if info_enabled then Raise TypeError else Ok tt);
      Ok exclusion_list
  | None => Ok []
  end.

End Exclusion_list_reader.

(** A field of the session notes that is a [str]. *)
Definition is_str `{Libs} (v : pyvalue) : bool :=
  match v with
  | VStr _ => true
  | _ => false
  end.

(** ** helpers/computational.py

    [_combine_coordinates] only moves elements; the two conversions
    between Cartesian and polar coordinates are binary64 arithmetic and
    are not embedded. *)
Module computational.
Import np.

(** [a.reshape(-1, 1)]: one column holding the elements in C order. *)
Definition reshape_column {T : Type} (a : ndarray T) : ndarray T :=
  mk_ndarray [length (flat a); 1] (flat a).

(** The rows of a two-dimensional array, from its elements. *)
Definition rows_of {T : Type} (rows cols : nat) (l : list T) : list (list T) :=
  (fun r => take cols (drop (r * cols) l)) <$> seq 0 rows.

(** [np.concatenate((a, b), axis=1)] on two-dimensional arrays: row [r]
    of [a] followed by row [r] of [b]; the numbers of rows have to
    agree. *)
Definition concatenate_axis1 {T : Type} (a b : ndarray T)
  : result (ndarray T) :=
  match shape a, shape b with
  | [ra; ca], [rb; cb] =>
      if decide (ra = rb) then
        Ok (mk_ndarray [ra; ca + cb]
              (concat (zip_with app (rows_of ra ca (flat a))
                                    (rows_of rb cb (flat b)))))
      else Raise ValueError
  | _, _ => Raise ValueError
  end.

Definition _combine_coordinates {T : Type} (coord1 coord2 : ndarray T)
  : result (ndarray T) :=
  concatenate_axis1 (reshape_column coord1) (reshape_column coord2).

End computational.

(** ** gui/boundary_animation.py

    What the animator takes from matplotlib and from the rest of satkit:
    mouse events with the axes they fall in ([None] outside every axes)
    and their x coordinate, [Line2D.contains] as a function of the x data
    of the line and of the event, the pixel buffer that [copy_from_bbox]
    saves for the axes of a boundary, the interval of
    satkit/data_structures/satgrid.py with [is_legal_value] and the
    assignment to [begin], and the sum and the difference of binary64
    numbers.  Axes are told apart by a number. *)
Class Matplotlib `{Float64} : Type := {
  MouseEvent : Type;
  inaxes : MouseEvent -> option nat;
  xdata : MouseEvent -> float64;
  contains : list float64 -> MouseEvent -> bool;
  Region : Type;
  copy_from_bbox : nat -> Region;
  SatInterval : Type;
  is_legal_value : SatInterval -> float64 -> bool;
  set_begin : SatInterval -> float64 -> SatInterval;
  float_add : float64 -> float64 -> float64;
  float_sub : float64 -> float64 -> float64
}.

Module BoundaryAnimator.

(** A rendered boundary: its axes and the x data of its line.  The two
    labels only take part in the drawing and are left out. *)
Record AnimatableBoundary `{Float64} : Type := mk_AnimatableBoundary {
  axes : nat;
  line : list float64
}.
Arguments mk_AnimatableBoundary {_} _ _.
Arguments axes {_} _.
Arguments line {_} _.

Record t `{Matplotlib} : Type := mk {
  boundaries : list AnimatableBoundary;
  segment : SatInterval;
  time_offset : float64;
  press : option (list float64 * float64);
  backgrounds : list Region
}.
Arguments mk {_ _} _ _ _ _ _.
Arguments boundaries {_ _} _.
Arguments segment {_ _} _.
Arguments time_offset {_ _} _.
Arguments press {_ _} _.
Arguments backgrounds {_ _} _.

(** The animators connected to a canvas and the class attribute [lock]
    that they share; an animator is known by its position. *)
Record canvas `{Matplotlib} : Type := mk_canvas {
  lock : option nat;
  animators : list t
}.
Arguments mk_canvas {_ _} _ _.
Arguments lock {_ _} _.
Arguments animators {_ _} _.

Inductive callback : Type :=
| button_press_event
| motion_notify_event
| button_release_event.

Section Callbacks.
Context `{Matplotlib}.

Definition __init__ (boundaries : list AnimatableBoundary)
    (segment : SatInterval) (time_offset : float64) : t :=
  mk boundaries segment time_offset None [].

(** The loop that looks for the axes of the event. *)
Definition is_inaxes (self : t) (event : MouseEvent) : bool :=
  existsb (fun boundary => bool_decide (inaxes event = Some (axes boundary)))
          (boundaries self).

(** The callbacks act on [lock] and on the animator they are bound to;
    [me] is the identity of that animator.  The calls that only draw
    are left out. *)
Definition on_press (me : nat) (event : MouseEvent)
    (lock : option nat) (self : t) : option nat * t :=
  match lock with
  | Some _ => (lock, self)
  | None =>
      if negb (is_inaxes self event) then (lock, self)
      else
        match List.find (fun boundary => contains (line boundary) event)
                        (boundaries self) with
        | None => (lock, self)
        | Some boundary =>
            (Some me,
             mk (boundaries self) (segment self) (time_offset self)
                (Some (line boundary, xdata event))
                (backgrounds self
                 ++ ((fun boundary => copy_from_bbox (axes boundary))
                       <$> boundaries self)))
        end
  end.

(** The loop of [on_motion] from boundary [i] on: the line is given the
    x data [x] and the interval its new beginning, then the background
    saved for the boundary is restored. *)
Fixpoint move (x : list float64) (begin : float64) (saved : list Region)
    (i : nat) (todo : list AnimatableBoundary) (segment : SatInterval)
  : list AnimatableBoundary * SatInterval * result unit :=
  match todo with
  | [] => ([], segment, Ok tt)
  | boundary :: todo' =>
      let boundary := mk_AnimatableBoundary (axes boundary) x in
      let segment := set_begin segment begin in
      match saved !! i with
      | None => (boundary :: todo', segment, Raise IndexError)
      | Some _ =>
          let '(moved, segment, outcome) :=
            move x begin saved (S i) todo' segment in
          (boundary :: moved, segment, outcome)
      end
  end.

Definition on_motion (me : nat) (event : MouseEvent)
    (lock : option nat) (self : t) : option nat * t * result unit :=
  if bool_decide (lock = Some me) then
    if negb (is_inaxes self event) then (lock, self, Ok tt)
    else
      match press self with
      | None => (lock, self, Raise TypeError)
      | Some (x0, xpress) =>
          let dx := float_sub (xdata event) xpress in
          match x0 !! 0 with
          | None => (lock, self, Raise IndexError)
          | Some first =>
              let begin := float_add (float_add first dx) (time_offset self) in
              if is_legal_value (segment self) begin then
                let '(moved, segment, outcome) :=
                  move ((fun x => float_add x dx) <$> x0) begin
                       (backgrounds self) 0 (boundaries self) (segment self) in
                (lock,
                 mk moved segment (time_offset self) (press self)
                    (backgrounds self),
                 outcome)
              else (lock, self, Ok tt)
          end
      end
  else (lock, self, Ok tt).

Definition on_release (me : nat) (event : MouseEvent)
    (lock : option nat) (self : t) : option nat * t :=
  if bool_decide (lock = Some me) then
    (None, mk (boundaries self) (segment self) (time_offset self) None [])
  else (lock, self).

(** One call of a callback of animator [me]. *)
Definition deliver (c : canvas) (me : nat) (cb : callback)
    (event : MouseEvent) : canvas * result unit :=
  match animators c !! me with
  | None => (c, Ok tt)
  | Some self =>
      let '(lock, self, outcome) :=
        match cb with
        | button_press_event => (on_press me event (lock c) self, Ok tt)
        | motion_notify_event => on_motion me event (lock c) self
        | button_release_event => (on_release me event (lock c) self, Ok tt)
        end in
      (mk_canvas lock (<[me := self]> (animators c)), outcome)
  end.

(** A series of calls, up to the first one that raises. *)
Fixpoint deliver_all (c : canvas)
    (calls : list (nat * callback * MouseEvent)) : canvas * result unit :=
  match calls with
  | [] => (c, Ok tt)
  | (me, cb, event) :: calls' =>
      match deliver c me cb event with
      | (c, Ok _) => deliver_all c calls'
      | (c, Raise e) => (c, Raise e)
      end
  end.

(** An animator at rest, and one that is being dragged. *)
Definition at_rest (self : t) : Prop :=
  press self = None ∧ backgrounds self = [].

Definition dragged (self : t) : Prop :=
  (∃ x0 xpress, press self = Some (x0, xpress) ∧ x0 ≠ [])
  ∧ length (backgrounds self) = length (boundaries self).

(** Every line has x data, the holder of the lock is being dragged and
    every other animator is at rest. *)
Definition consistent (c : canvas) : Prop :=
  ∀ me self, animators c !! me = Some self →
    Forall (fun boundary => line boundary ≠ []) (boundaries self)
    ∧ if decide (lock c = Some me) then dragged self else at_rest self.

End Callbacks.
End BoundaryAnimator.

(** ** qt_3d_annotator.py

    The cursor of the annotator window over its recordings.  [update]
    and [update_ui] redraw the window: they read the current recording
    and may load its data, but assign none of [index], [max_index] and
    [recordings], so they are taken as functions that give back the
    recordings as they leave them, with the outcome of the call.
    [LipVideo_release] stands for the assignment of [None] to the data
    of a [LipVideo] (satkit/io/AAA_video.py is not among the sources),
    [minus_one] for the binary64 number -1.0. *)
Module Pd3dQtAnnotator.

Record t `{Float64} `{Libs} (T : Type) : Type := mk {
  index : Z;
  max_index : Z;
  recordings : list (Recording.t T)
}.
Arguments mk {_ _ T} _ _ _.
Arguments index {_ _ T} _.
Arguments max_index {_ _ T} _.
Arguments recordings {_ _ T} _.

(** The values kept in the annotations of a recording. *)
Inductive annotation `{Float64} : Type :=
| AStr (s : string)
| AFloat (x : float64)
| AInt (z : Z).

(** The two buttons that move the cursor. *)
Inductive button : Type :=
| nextButton
| prevButton.

Section Cursor.
Context `{Float64} `{Libs} {T : Type}.
Variable update update_ui : t T -> list (Recording.t T) * result unit.
Variable LipVideo_release : LipVideo -> result LipVideo.
Variable minus_one : float64.

(** The position that [l[i]] reads: a negative index counts from the
    end. *)
Definition position {X : Type} (l : list X) (i : Z) : result nat :=
  let n := Z.of_nat (length l) in
  let i := if (i <? 0)%Z then (n + i)%Z else i in
  if (0 <=? i)%Z && (i <? n)%Z then Ok (Z.to_nat i) else Raise IndexError.

(** The part of the constructor that sets the cursor. *)
Definition __init__ (recordings : list (Recording.t T)) : t T :=
  mk 0 (Z.of_nat (length recordings)) recordings.

(** The property [current]. *)
Definition current (self : t T) : result (Recording.t T) :=
  i ← position (recordings self) (index self);
  getitem (recordings self) i.

(** [self.current.modalities['ThreeD_Ultrasound'].data = None] *)
Definition release (self : t T) : t T * result unit :=
  match (i ← position (recordings self) (index self);
         recording ← getitem (recordings self) i;
         modality ← match Recording.modalities recording
                          !! "ThreeD_Ultrasound" with
                    | Some m => Ok m
                    | None => Raise (KeyError "ThreeD_Ultrasound")
                    end;
         modality ← match modality with
                    | Recording.Ultrasound u =>
                        u ← ThreeD_Ultrasound.data_setter u None;
                        Ok (Recording.Ultrasound u)
                    | Recording.Video v =>
                        v ← LipVideo_release v; Ok (Recording.Video v)
                    end;
         Ok (i, Recording.mk (Recording.excluded recording)
                   (Recording.path recording) (Recording.basename recording)
                   (Recording.meta recording)
                   (<["ThreeD_Ultrasound" := modality]>
                      (Recording.modalities recording))))
  with
  | Ok (i, recording) =>
      (mk (index self) (max_index self) (<[i := recording]> (recordings self)),
       Ok tt)
  | Raise e => (self, Raise e)
  end.

(** [self.update(); self.update_ui()] *)
Definition redraw (self : t T) : t T * result unit :=
  match update self with
  | (recordings, Ok _) =>
      let self := mk (index self) (max_index self) recordings in
      let '(recordings, outcome) := update_ui self in
      (mk (index self) (max_index self) recordings, outcome)
  | (recordings, Raise e) =>
      (mk (index self) (max_index self) recordings, Raise e)
  end.

Definition next (self : t T) : t T * result unit :=
  if (index self <? max_index self - 1)%Z then
    match release self with
    | (self, Ok _) =>
        redraw (mk (index self + 1) (max_index self) (recordings self))
    | (self, Raise e) => (self, Raise e)
    end
  else (self, Ok tt).

Definition prev (self : t T) : t T * result unit :=
  if (0 <? index self)%Z then
    match release self with
    | (self, Ok _) =>
        redraw (mk (index self - 1) (max_index self) (recordings self))
    | (self, Raise e) => (self, Raise e)
    end
  else (self, Ok tt).

(** [go_to_recording], with [number] for what [int] makes of the text of
    the line edit.  The validator of the line edit is
    [QIntValidator(1, self.max_index + 1)]. *)
Definition go_to_recording (number : result Z) (self : t T)
  : t T * result unit :=
  match release self with
  | (self, Ok _) =>
      match number with
      | Ok n => redraw (mk (n - 1) (max_index self) (recordings self))
      | Raise e => (self, Raise e)
      end
  | (self, Raise e) => (self, Raise e)
  end.

(** A click on one of the two buttons, and a series of clicks up to the
    first call that raises. *)
Definition clicked (b : button) (self : t T) : t T * result unit :=
  match b with
  | nextButton => next self
  | prevButton => prev self
  end.

Fixpoint clicks (buttons : list button) (self : t T) : t T * result unit :=
  match buttons with
  | [] => (self, Ok tt)
  | b :: buttons' =>
      match clicked b self with
      | (self, Ok _) => clicks buttons' self
      | (self, Raise e) => (self, Raise e)
      end
  end.

(** The cursor is on a recording, or on 0 when there is none. *)
Definition in_range (self : t T) : Prop :=
  (0 ≤ index self)%Z ∧ (index self < max_index self ∨ index self = 0)%Z.

(** The property [default_annotations]; [l[-1]] is the last element of
    a list. *)
Definition default_annotations (categories tongue_positions : list string)
  : result (gmap string annotation) :=
  pdCategory ← match last categories with
               | Some c => Ok c
               | None => Raise IndexError
               end;
  tonguePosition ← match last tongue_positions with
                   | Some p => Ok p
                   | None => Raise IndexError
                   end;
  Ok (<["pdCategory" := AStr pdCategory]>
        (<["tonguePosition" := AStr tonguePosition]>
           (<["pdOnset" := AFloat minus_one]>
              {[ "pdOnsetIndex" := AInt (-1) ]}))).

(** [_add_annotations], on the annotations of the recordings: a
    dictionary that is not empty is updated with the defaults, an empty
    one is replaced by a copy of them. *)
Definition _add_annotations (categories tongue_positions : list string)
    (annotations : list (gmap string annotation))
  : result (list (gmap string annotation)) :=
  mapM_result
    (fun annotations : gmap string annotation =>
       defaults ← default_annotations categories tongue_positions;
       Ok (if size annotations =? 0 then defaults
           else defaults ∪ annotations))
    annotations.

End Cursor.
End Pd3dQtAnnotator.

(** ** A concrete platform

    Instances and inputs on which the model is run in the examples:
    binary64 numbers that are carried around but not computed with, a
    small table of time stamps, and path functions on strings. *)
Module Demo.

Definition opaque_numbers : Float64 :=
  {| float64 := unit; time_axis := fun n _ _ => replicate n tt |}.

Definition is_separator (c : Ascii.ascii) : bool :=
  Ascii.eqb c "\"%char || Ascii.eqb c "/"%char.

Fixpoint last_component (s current : string) : string :=
  match s with
  | EmptyString => current
  | String c rest =>
      if is_separator c then last_component rest EmptyString
      else last_component rest (String.append current (String c EmptyString))
  end.

Definition clock (s : string) : option nat :=
  if String.eqb s "01-Jan-2021 10:00:00" then Some 0
  else if String.eqb s "01-Jan-2021 10:05:00" then Some 300
  else None.

Definition libs : Libs :=
  {| datetime := nat;
     datetime_ltb := Nat.ltb;
     strptime := clock;
     PureWindowsPath_name := fun s => last_component s EmptyString;
     Path_name := fun s => last_component s EmptyString;
     os_path_join := fun dir name => String.append dir (String.append "/" name);
     LipVideo := unit |}.

#[local] Existing Instance opaque_numbers.
#[local] Existing Instance libs.

Definition echo : pydicom.DataElement :=
  pydicom.mk_DataElement "LO" "UDM_USD_DATATYPE_DIN_3D_ECHO".

Definition modality {T : Type} : ThreeD_Ultrasound.t T :=
  ThreeD_Ultrasound.mk (Some "T01.DCM") None None None None None None None tt.

(** Two frames of 2 x 1 x 1 samples, each with one byte of padding, in
    the frame-minor layout. *)
Definition frames : list (list nat) := [[10; 11]; [20; 21]].
Definition pads : list (list nat) := [[255]; [254]].


(** The same frames stored one after the other. *)
Definition contiguous_volume : pydicom.Dataset (cell nat) :=
  pydicom.mk_Dataset 3 echo [2; 1; 1] [tt; tt; tt] tt
    (pydicom.mk_UltraSequence 2 (concat (padded_frames frames pads))).

(** One frame of 2 x 1 x 1 samples without padding. *)
Definition single_frame : pydicom.Dataset nat :=
  pydicom.mk_Dataset 3 echo [2; 1; 1] [tt; tt; tt] tt
    (pydicom.mk_UltraSequence 1 [10; 11]).

(** Two frames of 2 x 2 x 1 samples declared, seven bytes delivered. *)
Definition short_volume : pydicom.Dataset nat :=
  pydicom.mk_Dataset 3 echo [2; 2; 1] [tt; tt; tt] tt
    (pydicom.mk_UltraSequence 2 [0; 1; 2; 3; 4; 5; 6]).

(** A three-region file whose sub-type is not the 3D echo one. *)
Definition doppler : pydicom.Dataset nat :=
  pydicom.mk_Dataset 3
    (pydicom.mk_DataElement "LO" "UDM_USD_DATATYPE_DIN_3D_DOPPLER")
    [2; 1; 1] [tt; tt; tt] tt (pydicom.mk_UltraSequence 1 [10; 11]).

(** A row of the session notes: trial number, prompt, two fields that
    are not read, time stamp, file name. *)
Definition row : list pyvalue :=
  [VInt 1; VStr "MINNIE"; VStr ""; VStr ""; VStr "01-Jan-2021 10:00:00";
   VStr "C:\data\T01.dat"].

Definition complete_record : gmap string pyvalue :=
  <["trial_number" := VInt 1]>
    (<["prompt" := VStr "MINNIE"]>
       (<["date_and_time" := VDate 0]>
          (<["dat_file_name" := VStr "T01.dat"]>
             {[ "comment" := VStr "retake" ]}))).

Definition incomplete_record : gmap string pyvalue :=
  <["trial_number" := VInt 1]> {[ "prompt" := VStr "MINNIE" ]}.

(** A directory in which T01 has no audio file. *)
Definition disk : filesystem nat :=
  mk_filesystem
    (fun name => String.eqb name "/data/T01.DCM")
    (fun dir pattern =>
       if String.eqb pattern "*.DCM" then ["/data/DCM/T01.DCM"]
       else ["/data/NOTES/notes.mat"])
    (fun _ => Ok single_frame)
    (fun _ => Ok [row])
    (fun _ => Ok [["T02"; "coughing"]]).

Definition recording : Recording.t nat :=
  ThreeD_UltrasoundRecording.__init__ disk (PStr "/data") "T01" false.

Definition no_video (preload : bool) (filename : pyvalue) : result unit :=
  Ok tt.



Definition numbered_row : list pyvalue :=
  [VInt 1; VStr "MINNIE"; VStr ""; VStr ""; VInt 20210101;
   VStr "C:\data\T01.dat"].

(** The record of a second take of the same trial. *)
Definition retake_record : gmap string pyvalue :=
  <["trial_number" := VInt 1]>
    (<["prompt" := VStr "MINNIE"]>
       (<["date_and_time" := VDate 300]>
          {[ "dat_file_name" := VStr "T01b.dat" ]})).

(** The same disk with another exclusion list. *)
Definition listing (rows : list (list string)) : filesystem nat :=
  mk_filesystem (isfile disk) (glob_sorted disk) (dcmread disk)
                (loadmat_officialNotes disk) (fun _ => Ok rows).

(** T01 with its modalities attached. *)
Definition unloaded : ThreeD_Ultrasound.t nat :=
  ThreeD_Ultrasound.mk (Some "/data/T01.DCM") None None None None None None
                       None tt.

Definition attached : Recording.t nat :=
  (addModalities disk no_video tt true false false recording).1.

(** A pointer that is in the axes its event names and on every line or
    on none, a canvas with one animator of two boundaries, and the same
    animator while it is dragged. *)
Definition pointer : Matplotlib :=
  {| MouseEvent := option nat * bool;
     inaxes := fst;
     xdata := fun _ => tt;
     contains := fun _ event => snd event;
     Region := nat;
     copy_from_bbox := fun axes => axes;
     SatInterval := unit;
     is_legal_value := fun _ _ => true;
     set_begin := fun segment _ => segment;
     float_add := fun _ _ => tt;
     float_sub := fun _ _ => tt |}.

#[local] Existing Instance pointer.

Definition boundary_pair : list BoundaryAnimator.AnimatableBoundary :=
  [BoundaryAnimator.mk_AnimatableBoundary 0 [tt; tt];
   BoundaryAnimator.mk_AnimatableBoundary 1 [tt; tt]].

Definition tier : BoundaryAnimator.canvas :=
  BoundaryAnimator.mk_canvas None
    [BoundaryAnimator.__init__ boundary_pair tt tt].

Definition held : BoundaryAnimator.t :=
  BoundaryAnimator.mk boundary_pair tt tt (Some ([tt; tt], tt)) [0; 1].

(** A window on T01 twice, whose redrawing leaves the recordings alone,
    and the annotations of a recording that has been categorised. *)
Definition still (self : Pd3dQtAnnotator.t nat)
  : list (Recording.t nat) * result unit :=
  (Pd3dQtAnnotator.recordings self, Ok tt).

Definition keep_video (video : unit) : result unit := Ok video.

Definition annotator : Pd3dQtAnnotator.t nat :=
  Pd3dQtAnnotator.__init__ [attached; attached].

Definition categorised : gmap string Pd3dQtAnnotator.annotation :=
  {[ "pdCategory" := Pd3dQtAnnotator.AStr "Stable" ]}.

Definition categories : list string :=
  ["Stable"; "Hesitation"; "Chaos"; "No data"; "Not set"].

Definition tongue_positions : list string :=
  ["High"; "Low"; "Other / Not visible"].

Definition reset : list (gmap string Pd3dQtAnnotator.annotation) :=
  match Pd3dQtAnnotator._add_annotations tt categories tongue_positions
          [categorised] with
  | Ok annotations => annotations
  | Raise _ => []
  end.

(** A recording T02 as the base class leaves it. *)
Definition bare : Recording.t nat := Recording.__init__ (PStr "/data") "T02".

End Demo.

(** * Properties *)

Import np pydicom ThreeD_Ultrasound.

(** ** Lists and offsets *)

Lemma omap_total_lookup {X Y : Type} (f : X → option Y) (l : list X) (i : nat) :
  Forall (λ x, is_Some (f x)) l → omap f l !! i = l !! i ≫= f.
Proof.
  intros Hl. revert i. induction Hl as [|x l [y Hy] _ IH]; intros i.
  - done.
  - cbn. rewrite Hy. destruct i as [|i]; cbn; [by rewrite Hy | apply IH].
Qed.

Lemma omap_total_length {X Y : Type} (f : X → option Y) (l : list X) :
  Forall (λ x, is_Some (f x)) l → length (omap f l) = length l.
Proof.
  induction 1 as [|x l [y Hy] _ IH]; [done |].
  cbn. rewrite Hy. cbn. by rewrite IH.
Qed.

Lemma concat_lookup_uniform {X : Type} (ls : list (list X)) (n r c : nat) :
  Forall (λ l, length l = n) ls → c < n →
  concat ls !! (r * n + c) = ls !! r ≫= (.!! c).
Proof.
  intros Hls Hc. revert r. induction Hls as [|l ls Hl _ IH]; intros r.
  - done.
  - cbn [concat]. destruct r as [|r].
    + cbn. rewrite lookup_app_l; [done | lia].
    + rewrite lookup_app_r by lia.
      replace (S r * n + c - length l) with (r * n + c) by lia.
      apply IH.
Qed.

Lemma ravel_lt (shp idx : list nat) :
  Forall2 lt idx shp → ravel shp idx < prod shp.
Proof.
  induction 1 as [|i n idx shp Hi _ IH]; cbn; [lia |].
  fold (prod shp). nia.
Qed.

Lemma unravel_ravel (shp idx : list nat) :
  Forall2 lt idx shp → unravel shp (ravel shp idx) = idx.
Proof.
  induction 1 as [|i n idx shp Hi Hrest IH]; cbn; [done |].
  pose proof (ravel_lt _ _ Hrest) as Hlt.
  fold (prod shp).
  replace ((i * prod shp + ravel shp idx) / prod shp) with i.
  2:{ rewrite Nat.div_add_l, Nat.div_small by lia. lia. }
  replace ((i * prod shp + ravel shp idx) `mod` prod shp) with (ravel shp idx).
  2:{ rewrite (Nat.add_comm (i * _)), Nat.Div0.mod_add, Nat.mod_small; done. }
  by rewrite IH.
Qed.

Lemma unravel_lt (shp : list nat) (m : nat) :
  m < prod shp → Forall2 lt (unravel shp m) shp.
Proof.
  revert m. induction shp as [|n shp IH]; intros m Hm; cbn; [constructor |].
  cbn in Hm. fold (prod shp) in Hm.
  assert (0 < prod shp) by nia.
  constructor.
  - apply Nat.Div0.div_lt_upper_bound. lia.
  - apply IH, Nat.mod_upper_bound. lia.
Qed.

Lemma prod_app (l k : list nat) : prod (l ++ k) = prod l * prod k.
Proof.
  unfold prod. induction l as [|n l IH]; cbn; [lia |]. rewrite IH. lia.
Qed.

Lemma prod_reverse (shp : list nat) : prod (reverse shp) = prod shp.
Proof.
  induction shp as [|n shp IH]; [done |].
  rewrite reverse_cons, prod_app, IH. unfold prod. cbn. lia.
Qed.

Lemma transpose_offset_lt (shp : list nat) (m : nat) :
  m < prod shp → ravel shp (reverse (unravel (reverse shp) m)) < prod shp.
Proof.
  intros Hm. apply ravel_lt.
  rewrite <- (reverse_involutive shp) at 2.
  apply Forall2_reverse, unravel_lt. by rewrite prod_reverse.
Qed.

Lemma gather_lookup {T : Type} (offs : list nat) (l : list T) (k : nat) :
  Forall (λ i, i < length l) offs →
  gather offs l !! k = offs !! k ≫= (l !!.).
Proof.
  intros Hoffs. apply omap_total_lookup.
  eapply Forall_impl; [exact Hoffs |]. intros i Hi. by apply lookup_lt_is_Some.
Qed.

Lemma gather_length {T : Type} (offs : list nat) (l : list T) :
  Forall (λ i, i < length l) offs → length (gather offs l) = length offs.
Proof.
  intros Hoffs. apply omap_total_length.
  eapply Forall_impl; [exact Hoffs |]. intros i Hi. by apply lookup_lt_is_Some.
Qed.


Section Transpose.
Context {T : Type} (a : ndarray T) (Hwf : well_formed a).

Lemma transpose_offsets_valid :
  Forall (λ i, i < length (flat a))
    ((λ m, ravel (shape a) (reverse (unravel (reverse (shape a)) m)))
       <$> seq 0 (prod (reverse (shape a)))).
Proof.
  rewrite Forall_fmap, Forall_forall. intros m Hm.
  apply elem_of_seq in Hm. cbn. rewrite Hwf.
  apply transpose_offset_lt. rewrite prod_reverse in Hm. lia.
Qed.

Lemma transpose_well_formed : well_formed (transpose a).
Proof.
  unfold well_formed, transpose. cbn.
  rewrite gather_length by apply transpose_offsets_valid.
  by rewrite length_fmap, length_seq.
Qed.

Lemma transpose_flat_lookup (m : nat) :
  m < prod (shape a) →
  flat (transpose a) !! m
  = flat a !! ravel (shape a) (reverse (unravel (reverse (shape a)) m)).
Proof.
  intros Hm. unfold transpose. cbn.
  rewrite gather_lookup by apply transpose_offsets_valid.
  rewrite list_lookup_fmap, lookup_seq_lt by (by rewrite prod_reverse).
  done.
Qed.



End Transpose.

Lemma length_concat_replicate {X : Type} (n : nat) (l : list X) :
  length (concat (replicate n l)) = n * length l.
Proof. induction n as [|n IH]; cbn; [done |]. rewrite length_app, IH. lia. Qed.

Lemma repmat_arange (fs n : nat) :
  repmat (arange fs) n 1 = mk_ndarray [n; fs] (concat (replicate n (seq 0 fs))).
Proof.
  unfold repmat, arange. cbn [flat replicate concat].
  by rewrite app_nil_r, length_seq, Nat.mul_1_l.
Qed.

Lemma repmat_arange_well_formed (fs n : nat) :
  well_formed (repmat (arange fs) n 1).
Proof.
  rewrite repmat_arange. unfold well_formed, prod. cbn.
  rewrite length_concat_replicate, length_seq. lia.
Qed.

Lemma transpose_2d_offset (n k m : nat) :
  ravel [n; k] (reverse (unravel (reverse [n; k]) m)) = m `mod` n * k + m / n.
Proof.
  cbv [reverse rev_append unravel ravel prod foldr].
  rewrite !Nat.mul_1_r, Nat.div_1_r. lia.
Qed.

(** The index array of the decoder holds its own row number everywhere. *)
Lemma index_flat_lookup (fs n m : nat) :
  m < fs * n →
  flat (transpose (repmat (arange fs) n 1)) !! m = Some (m / n).
Proof.
  intros Hm. assert (0 < n) as Hn by nia.
  rewrite transpose_flat_lookup by first
    [ apply repmat_arange_well_formed
    | rewrite repmat_arange; unfold prod; cbn; lia ].
  rewrite repmat_arange. cbn [shape flat].
  rewrite transpose_2d_offset.
  assert (m / n < fs) as Hr by (apply Nat.Div0.div_lt_upper_bound; lia).
  assert (m `mod` n < n) as Hc by (apply Nat.mod_upper_bound; lia).
  rewrite (concat_lookup_uniform _ fs).
  - rewrite lookup_replicate_2 by done. cbn. by rewrite lookup_seq_lt.
  - apply Forall_forall. intros l Hl. apply elem_of_replicate in Hl as [-> _].
    by rewrite length_seq.
  - done.
Qed.

Lemma index_shape (fs n : nat) :
  shape (transpose (repmat (arange fs) n 1)) = [fs; n].
Proof. by rewrite repmat_arange. Qed.

(** Taking along the index array keeps the first [fs] rows, and fails
    when there are fewer. *)
Lemma take_rows {T : Type} (buf : list T) (rows fs n : nat) :
  length buf = rows * n → fs ≤ rows →
  take_along_axis0 (mk_ndarray [rows; n] buf)
                   (transpose (repmat (arange fs) n 1))
  = Ok (mk_ndarray [fs; n] (take (fs * n) buf)).
Proof.
  intros Hlen Hfs. unfold take_along_axis0.
  rewrite index_shape. cbn [shape flat]. rewrite decide_True by done.
  rewrite (mapM_Some_2 _ _ (take (fs * n) buf)); [done |].
  apply Forall2_same_length_lookup_2.
  { rewrite length_seq, length_take_le; [done | nia]. }
  intros i x y Hx Hy.
  apply lookup_seq in Hx as [-> Hi]. cbn [Nat.add].
  apply lookup_take_Some in Hy as [Hy _].
  rewrite index_flat_lookup by done. cbn.
  assert (i / n < fs) by (apply Nat.Div0.div_lt_upper_bound; lia).
  rewrite decide_True by lia.
  rewrite <- Hy. f_equal. pose proof (Nat.div_mod_eq i n). lia.
Qed.

Lemma take_rows_short {T : Type} (buf : list T) (rows fs n : nat) :
  rows < fs → 0 < n →
  take_along_axis0 (mk_ndarray [rows; n] buf)
                   (transpose (repmat (arange fs) n 1))
  = Raise IndexError.
Proof.
  intros Hrows Hn. unfold take_along_axis0.
  rewrite index_shape. cbn [shape flat]. rewrite decide_True by done.
  rewrite (proj2 (mapM_None _ _)); [done |].
  apply Exists_exists. exists (rows * n). split.
  - apply elem_of_seq. nia.
  - rewrite index_flat_lookup by nia. cbn.
    rewrite Nat.div_mul by lia. by rewrite decide_False by lia.
Qed.

Lemma set_shape_cases {T : Type} (new : list Z) (a : ndarray T) :
  set_shape new a = Raise ValueError
  ∨ (Forall (λ z, 0 ≤ z)%Z new
     ∧ prod (Z.to_nat <$> new) = length (flat a)
     ∧ set_shape new a = Ok (mk_ndarray (Z.to_nat <$> new) (flat a))).
Proof.
  unfold set_shape. destruct (forallb (Z.leb 0) new) eqn:Hnew; [| by left].
  destruct (prod (Z.to_nat <$> new) =? length (flat a)) eqn:Hsize; [| by left].
  right. split_and!; [| by apply Nat.eqb_eq | done].
  apply Forall_forall. intros z Hz.
  rewrite forallb_forall in Hnew. apply Z.leb_le, Hnew.
  by apply list_elem_of_In.
Qed.

Lemma set_shape_ok {T : Type} (shp : list nat) (a : ndarray T) :
  prod shp = length (flat a) →
  set_shape (Z.of_nat <$> shp) a = Ok (mk_ndarray shp (flat a)).
Proof.
  intros Hsize.
  assert (Z.to_nat <$> (Z.of_nat <$> shp) = shp) as Hid.
  { rewrite <- list_fmap_compose. rewrite <- (list_fmap_id shp) at 2.
    apply list_fmap_ext. intros _ z _. cbn. lia. }
  destruct (set_shape_cases (Z.of_nat <$> shp) a) as [Hbad|(_ & _ & Hok)].
  - exfalso. unfold set_shape in Hbad.
    rewrite Hid, (proj2 (Nat.eqb_eq _ _) Hsize) in Hbad.
    destruct (forallb _ _) eqn:Hall; [done |].
    apply not_true_iff_false in Hall. apply Hall.
    apply forallb_forall. intros z Hz. apply Z.leb_le.
    apply list_elem_of_In, list_elem_of_fmap in Hz as (k & -> & _). lia.
  - by rewrite Hok, Hid.
Qed.

Lemma bind_Ok {X Y : Type} (v : X) (k : X → result Y) : (Ok v ≫= k) = k v.
Proof. done. Qed.

(** The first axis handed to the shape assignment is never negative. *)
Lemma rows_nonneg (len fs n : nat) :
  0 < n →
  (0 ≤ Z.of_nat fs + (Z.of_nat len - Z.of_nat fs * Z.of_nat n) ÷ Z.of_nat n)%Z.
Proof.
  intros Hn.
  assert (- Z.of_nat fs ≤ (Z.of_nat len - Z.of_nat fs * Z.of_nat n) ÷ Z.of_nat n)%Z;
    [| lia].
  rewrite <- (Z.quot_mul (- Z.of_nat fs) (Z.of_nat n)) at 1 by lia.
  apply Z.quot_le_mono; lia.
Qed.

(** ** The volume decode *)

Section Decode.
Context `{Float64} {T : Type}.

Lemma getitem_frames (dims : list nat) (n : nat) :
  length dims = 3 → getitem (dims ++ [n]) 3 = Ok n.
Proof.
  intros Hdims. unfold getitem.
  rewrite lookup_app_r by lia. by rewrite Hdims.
Qed.

(** A buffer of the right length is decoded to the transpose of its
    first [frame_size * frame_count] bytes, seen as an array of the
    declared dimensions with the frame axis last. *)
Lemma read_3D_ultra_ok (self : t T) (ds : Dataset T) (p : nat) :
  let dims := tag_200d_3301 ds in
  let n := tag_200d_3010 (tag_200d_3020 ds) in
  let buf := tag_200d_300e (tag_200d_3020 ds) in
  length dims = 3 → 0 < n → length buf = (prod dims + p) * n →
  _read_3D_ultra self ds
  = Ok (loaded self ds
          (transpose (mk_ndarray (dims ++ [n]) (take (prod dims * n) buf)))).
Proof.
  intros dims n buf Hdims Hn Hlen. unfold _read_3D_ultra.
  fold dims n buf. rewrite !getitem_frames, !bind_Ok by done.
  unfold int_truediv. rewrite decide_False by lia. rewrite bind_Ok.
  replace (Z.of_nat (length buf) - Z.of_nat (prod dims) * Z.of_nat n)%Z
    with (Z.of_nat p * Z.of_nat n)%Z
    by (rewrite Hlen, Nat2Z.inj_mul, Nat2Z.inj_add; ring).
  rewrite Z.quot_mul by lia.
  replace [(Z.of_nat (prod dims) + Z.of_nat p)%Z; Z.of_nat n]
    with (Z.of_nat <$> [prod dims + p; n]) by (cbn; f_equal; lia).
  rewrite set_shape_ok
    by (cbn [flat frombuffer]; rewrite Hlen; unfold prod; cbn [foldr]; lia).
  rewrite bind_Ok. cbn [flat frombuffer].
  rewrite take_rows by lia. rewrite bind_Ok.
  rewrite set_shape_ok.
  - done.
  - cbn [flat]. rewrite prod_app, length_take_le by nia.
    unfold prod. cbn. lia.
Qed.

(** C2.  A buffer shorter than [frame_size * frame_count], or one whose
    remainder over that size is not a multiple of [frame_count], is never
    decoded: [_read_3D_ultra] raises one of the numpy errors gathered
    under [CorruptVolume] (the shape assignment refuses the size, or
    [take_along_axis] refuses a row index). *)
Theorem read_3D_ultra_corrupt (self : t T) (ds : Dataset T) :
  let dims := tag_200d_3301 ds in
  let n := tag_200d_3010 (tag_200d_3020 ds) in
  let buf := tag_200d_300e (tag_200d_3020 ds) in
  let remainder :=
    (Z.of_nat (length buf) - Z.of_nat (prod dims) * Z.of_nat n)%Z in
  length dims = 3 →
  (remainder < 0 ∨ ¬ (Z.of_nat n | remainder))%Z →
  ∃ e, _read_3D_ultra self ds = Raise e ∧ CorruptVolume e.
Proof.
  intros dims n buf remainder Hdims Hbad. unfold _read_3D_ultra, CorruptVolume.
  fold dims n buf. rewrite !getitem_frames, !bind_Ok by done.
  fold remainder. unfold int_truediv.
  destruct (decide (Z.of_nat n = 0)%Z) as [Hn0|Hn0].
  { destruct (decide (remainder = 0)%Z) as [Hr|Hr]; eauto. }
  rewrite bind_Ok.
  destruct (set_shape_cases
              [(Z.of_nat (prod dims) + remainder ÷ Z.of_nat n)%Z; Z.of_nat n]
              (frombuffer buf)) as [->|(Hpos & Hsize & ->)]; [eauto |].
  rewrite bind_Ok.
  apply Forall_cons_1 in Hpos as [Hpos _].
  cbn [fmap list_fmap flat frombuffer] in *.
  unfold prod in Hsize. cbn [foldr] in Hsize.
  rewrite Nat2Z.id, Nat.mul_1_r in Hsize.
  set (q := (remainder ÷ Z.of_nat n)%Z) in *.
  assert ((Z.of_nat (prod dims) + q) * Z.of_nat n
          = Z.of_nat (length buf))%Z as Hmul.
  { rewrite <- Hsize, Nat2Z.inj_mul, Z2Nat.id; done. }
  assert (remainder = q * Z.of_nat n)%Z as Hdiv by (unfold remainder; lia).
  destruct Hbad as [Hneg|Hndiv].
  2:{ exfalso. apply Hndiv. by exists q. }
  rewrite Nat2Z.id, take_rows_short by nia. eauto.
Qed.

End Decode.

(** ** The frame-minor layout *)

Lemma length_concat_uniform {X : Type} (ls : list (list X)) (n : nat) :
  Forall (λ l, length l = n) ls → length (concat ls) = length ls * n.
Proof.
  induction 1 as [|l ls Hl _ IH]; [done |].
  cbn. rewrite length_app, IH. lia.
Qed.

Section FrameMinor.
Context {X : Type} (columns : list (list X)) (rows : nat).
Hypothesis Hcols : Forall (λ col, length col = rows) columns.





End FrameMinor.

Section Padded.
Context {T : Type} (frames pads : list (list T)) (fs p : nat).
Hypothesis Hpads : length pads = length frames.
Hypothesis Hframes : Forall (λ fr, length fr = fs) frames.
Hypothesis Hpad : Forall (λ pd, length pd = p) pads.




End Padded.



Section Volume.
Context `{Float64} {T : Type}.


End Volume.

(** ** Layout check and the data property *)

Section GetData.
Context `{Float64} {T : Type}.

(** A file that does not declare exactly three regions ends the run. *)
Lemma getData_unsupported_layout (dcmread : string → result (Dataset T))
    (self : t T) (f : string) (ds : Dataset T) :
  meta_filename self = Some f → dcmread f = Ok ds →
  SequenceOfUltrasoundRegions ds ≠ 3 →
  _getData dcmread self = Raise SystemExit.
Proof.
  intros Hf Hds Hregions. unfold _getData. rewrite Hf, bind_Ok, Hds, bind_Ok.
  by rewrite (proj2 (Nat.eqb_neq _ _) Hregions).
Qed.

(** A file with three regions never gets past the read of its sub-type,
    whatever that sub-type is. *)
Lemma getData_three_regions (dcmread : string → result (Dataset T))
    (self : t T) (f : string) (ds : Dataset T) :
  meta_filename self = Some f → dcmread f = Ok ds →
  SequenceOfUltrasoundRegions ds = 3 →
  _getData dcmread self = Raise (AttributeError "valuex").
Proof.
  intros Hf Hds Hregions. unfold _getData. rewrite Hf, bind_Ok, Hds, bind_Ok.
  by rewrite Hregions.
Qed.

Lemma data_setter_some (self : t T) (v : ndarray T) :
  data_setter self (Some v) = Raise NotImplementedError.
Proof. done. Qed.

Lemma data_setter_none (self : t T) :
  ∃ self', data_setter self None = Ok self' ∧ _data self' = None.
Proof. by eexists. Qed.

Lemma data_setter_ok_inv (self self' : t T) (new : option (ndarray T)) :
  data_setter self new = Ok self' → new = None ∧ _data self' = None.
Proof. destruct new; [done |]. cbn. by intros [= <-]. Qed.

End GetData.

(** ** Session notes *)

Import Recording.

Section Notes.
Context `{Libs}.
Import ThreeD_UltrasoundRecording.

Section Element.
Variables (element : list pyvalue) (e0 e1 : pyvalue) (a b : string).
Hypothesis Hlen : 5 < length element.
Hypothesis H0 : element !! 0 = Some e0.
Hypothesis H1 : element !! 1 = Some e1.
Hypothesis H4 : element !! 4 = Some (VStr a).
Hypothesis H5 : element !! 5 = Some (VStr b).





End Element.

Lemma meta_tokens_raise (element : list pyvalue) (rest : list (list pyvalue))
    (e : exn) :
  meta_token element = Raise e → meta_tokens (element :: rest) = Raise e.
Proof. intros Hel. cbn [meta_tokens]. by rewrite Hel. Qed.


End Notes.

(** ** Recordings *)

Section Builder.
Context `{Float64} `{Libs} {T : Type}.
Import ThreeD_UltrasoundRecording.

(** C5.  [generateRecordingList] returns no list at all: on a [str] the
    first [directory / "DCM"] is a TypeError, and on a [Path] the
    generator of [note_dir.glob('*.mat')] is subscripted, which is a
    TypeError as well. *)
Theorem generateRecordingList_raises (fs : filesystem T) (directory : pathlike) :
  generateRecordingList fs directory = Raise TypeError.
Proof. by destruct directory. Qed.

(** The constructor excludes a recording exactly when its audio or its
    volume file is missing, or when its video file is missing and video
    is required. *)
Lemma init_excluded (fs : filesystem T) (path : pathlike) (basename : string)
    (requireVideo : bool) :
  let file ext := os_path_join (fspath path) (String.append basename ext) in
  excluded (__init__ fs path basename requireVideo)
  = negb (isfile fs (file ".wav"))
    || negb (isfile fs (file ".DCM"))
    || (requireVideo && negb (isfile fs (file ".avi"))).
Proof.
  cbn zeta. unfold __init__.
  destruct (isfile fs (os_path_join _ (String.append basename ".wav")));
    destruct (isfile fs (os_path_join _ (String.append basename ".DCM")));
    destruct (isfile fs (os_path_join _ (String.append basename ".avi")));
    destruct requireVideo; done.
Qed.

Lemma init_basename (fs : filesystem T) (path : pathlike) (basename : string)
    (requireVideo : bool) :
  Recording.basename (__init__ fs path basename requireVideo) = basename.
Proof.
  unfold __init__.
  destruct (isfile fs (os_path_join _ (String.append basename ".wav")));
    destruct (isfile fs (os_path_join _ (String.append basename ".DCM")));
    destruct (isfile fs (os_path_join _ (String.append basename ".avi")));
    destruct requireVideo; done.
Qed.

(** *** The metadata merge *)

Lemma wanted_meta_Some (d : gmap string pyvalue) (wanted : list (string * pyvalue)) :
  wanted_meta d = Some wanted ↔
  ∃ v1 v2 v3 v4,
    d !! "trial_number" = Some v1 ∧ d !! "prompt" = Some v2
    ∧ d !! "date_and_time" = Some v3 ∧ d !! "dat_file_name" = Some v4
    ∧ wanted = [("trial_number", v1); ("prompt", v2);
                ("date_and_time", v3); ("dat_file_name", v4)].
Proof.
  unfold wanted_meta, requiredMetaKeys. cbn.
  destruct (d !! "trial_number") as [v1|]; cbn.
  2:{ split; [done | by intros (? & ? & ? & ? & ? & _)]. }
  destruct (d !! "prompt") as [v2|]; cbn.
  2:{ split; [done | by intros (? & ? & ? & ? & _ & ? & _)]. }
  destruct (d !! "date_and_time") as [v3|]; cbn.
  2:{ split; [done | by intros (? & ? & ? & ? & _ & _ & ? & _)]. }
  destruct (d !! "dat_file_name") as [v4|]; cbn.
  2:{ split; [done | by intros (? & ? & ? & ? & _ & _ & _ & ? & _)]. }
  split.
  - intros [= <-]. by exists v1, v2, v3, v4.
  - intros (? & ? & ? & ? & [= <-] & [= <-] & [= <-] & [= <-] & ->). done.
Qed.

Lemma wanted_meta_None (d : gmap string pyvalue) :
  wanted_meta d = None ↔ ∃ key, key ∈ requiredMetaKeys ∧ d !! key = None.
Proof.
  unfold wanted_meta. rewrite mapM_None, Exists_exists. split.
  - intros (key & Hkey & Hnone). exists key. split; [done |].
    by destruct (d !! key).
  - intros (key & Hkey & Hnone). exists key. split; [done |]. by rewrite Hnone.
Qed.

Lemma addMeta_incomplete (d : gmap string pyvalue) (self : Recording.t T)
    (key : string) :
  key ∈ requiredMetaKeys → d !! key = None →
  (addMeta (MetaDict d) self).1 = self
  ∧ ∃ e, (addMeta (MetaDict d) self).2 = Raise e
         ∧ e = match meta self !! "filename" with
               | Some (VStr _) => SystemExit
               | Some _ => TypeError
               | None => KeyError "filename"
               end.
Proof.
  intros Hkey Hnone. unfold addMeta.
  rewrite (proj2 (wanted_meta_None d)) by eauto. cbn [fst snd].
  split; [done |]. unfold meta_getitem.
  destruct (meta self !! "filename") as [[]|]; cbn; eauto.
Qed.

Lemma addMeta_complete (d : gmap string pyvalue) (self : Recording.t T) :
  (∀ key, key ∈ requiredMetaKeys → is_Some (d !! key)) →
  (addMeta (MetaDict d) self).2 = Ok tt
  ∧ excluded (addMeta (MetaDict d) self).1 = excluded self
  ∧ basename (addMeta (MetaDict d) self).1 = basename self
  ∧ modalities (addMeta (MetaDict d) self).1 = modalities self
  ∧ ∀ key, meta (addMeta (MetaDict d) self).1 !! key
           = if decide (key ∈ requiredMetaKeys) then d !! key
             else meta self !! key.
Proof.
  intros Hall. unfold addMeta.
  destruct (wanted_meta d) as [wanted|] eqn:Hwanted.
  2:{ apply wanted_meta_None in Hwanted as (key & Hkey & Hnone).
      destruct (Hall key Hkey) as [v Hv]. congruence. }
  cbn [fst snd excluded basename modalities meta]. split_and!; [done.. |].
  apply wanted_meta_Some in Hwanted
    as (v1 & v2 & v3 & v4 & H1' & H2' & H3' & H4' & ->).
  intros key. unfold update. cbn [foldl fst snd].
  destruct (decide (key ∈ requiredMetaKeys)) as [Hin|Hnin].
  - unfold requiredMetaKeys in Hin. rewrite !elem_of_cons in Hin.
    destruct Hin as [->|[->|[->|[->|Hin]]]];
      [ repeat (rewrite lookup_insert_ne by done);
        rewrite lookup_insert_eq; congruence .. |].
    by apply elem_of_nil in Hin.
  - unfold requiredMetaKeys in Hnin. rewrite !not_elem_of_cons in Hnin.
    destruct Hnin as (? & ? & ? & ? & _). by rewrite !lookup_insert_ne.
Qed.

End Builder.

(** ** Exclusion *)

Section Lifetime.
Context `{Float64} `{Libs} {T : Type}.

(** None of the three operations touches the exclusion flag other than
    to set it. *)
Lemma addMeta_excluded (meta : ThreeD_UltrasoundRecording.meta_arg)
    (self : Recording.t T) :
  excluded (ThreeD_UltrasoundRecording.addMeta meta self).1 = excluded self.
Proof.
  unfold ThreeD_UltrasoundRecording.addMeta.
  destruct meta as [|d|l]; [done | | done].
  by destruct (ThreeD_UltrasoundRecording.wanted_meta d).
Qed.

Lemma addModality_excluded (name : string) (m : modality T)
    (self : Recording.t T) :
  excluded (addModality name m self).1 = excluded self.
Proof. unfold addModality. by destruct (modalities self !! name). Qed.

Lemma addModalities_excluded (fs : filesystem T)
    (LipVideo_init : bool → pyvalue → result LipVideo) (zero : float64)
    (wav ult video : bool) (recording : Recording.t T) :
  excluded (addModalities fs LipVideo_init zero wav ult video recording).1
  = excluded recording.
Proof.
  unfold addModalities.
  destruct (meta_getitem recording "basename"); [| done].
  destruct (meta_getitem recording "ult_file") as [ult_file|]; [| done].
  destruct (_ ≫= _) as [ultrasound|]; [| done].
  pose proof (addModality_excluded "ThreeD_Ultrasound" (Ultrasound ultrasound)
                recording) as Hfirst.
  destruct (addModality "ThreeD_Ultrasound" _ recording) as [r1 [[]|e]];
    cbn [fst] in Hfirst; [| done].
  destruct (meta_getitem r1 "video_exists") as [video_exists|]; [| done].
  destruct (truthy video_exists); [| done].
  destruct (meta_getitem r1 "video_file") as [video_file|]; [| done].
  destruct (LipVideo_init video video_file) as [lip|]; [| done].
  by rewrite addModality_excluded.
Qed.

Lemma set_exclusions_lookup (fs : filesystem T) (filename : option string)
    (recordings : list (Recording.t T)) (i : nat) (r : Recording.t T) :
  recordings !! i = Some r →
  ∃ r', (set_exclusions_from_file fs filename recordings).1 !! i = Some r'
        ∧ basename r' = basename r
        ∧ (excluded r = true → excluded r' = true).
Proof.
  intros Hr. unfold set_exclusions_from_file.
  destruct (match filename with Some _ => _ | None => _ end)
    as [exclusion_list|e]; cbn [fst].
  - rewrite list_lookup_fmap, Hr. cbn. eexists. split; [done |].
    by case_bool_decide.
  - by exists r.
Qed.

Lemma step_excluded (recording : Recording.t T) (op : operation T) :
  excluded recording = true → excluded (step recording op) = true.
Proof.
  intros Hex. destruct op as [meta|fs init off wav ult video|fs filename before after];
    cbn [step].
  - by rewrite addMeta_excluded.
  - by rewrite addModalities_excluded.
  - destruct (set_exclusions_lookup fs filename (before ++ recording :: after)
                (length before) recording) as (r' & -> & _ & Hr').
    { by rewrite list_lookup_middle. }
    by apply Hr'.
Qed.

(** C9.  A recording that is excluded stays excluded through every
    sequence of metadata merges, modality attachments and exclusion
    lists, whether these calls return or raise. *)
Theorem excluded_monotonic (ops : list (operation T))
    (recording : Recording.t T) :
  excluded recording = true → excluded (lifetime ops recording) = true.
Proof.
  unfold lifetime. revert recording.
  induction ops as [|op ops IH]; intros recording Hex; [done |].
  cbn [foldl]. by apply IH, step_excluded.
Qed.

End Lifetime.

(** ** The data property and the metadata merge, as stated *)

Section Stated.
Context `{Float64} `{Libs} {T : Type}.
Import ThreeD_UltrasoundRecording.

(** C7.  Once [data] is populated, assigning anything that is not [None]
    fails (NotImplementedError is the AlreadyLoaded of the
    specification), and assigning [None] succeeds from every state and
    leaves [data] absent. *)
Theorem data_setter_populated (self : ThreeD_Ultrasound.t T) :
  (∀ d new : ndarray T,
     _data self = Some d →
     data_setter self (Some new) = Raise NotImplementedError)
  ∧ ∃ self', data_setter self None = Ok self' ∧ _data self' = None.
Proof.
  split.
  - intros d new _. apply data_setter_some.
  - apply data_setter_none.
Qed.

(** C10.  The setter of [data] refuses every value that is not [None],
    whatever the state, so a call that returns was given [None] and
    leaves [data] absent: an assignment never populates [data]. *)
Theorem data_setter_only_None (self : ThreeD_Ultrasound.t T) :
  (∀ v : ndarray T, data_setter self (Some v) = Raise NotImplementedError)
  ∧ (∃ self', data_setter self None = Ok self' ∧ _data self' = None)
  ∧ (∀ new self', data_setter self new = Ok self' →
                  new = None ∧ _data self' = None).
Proof.
  split_and!.
  - apply data_setter_some.
  - apply data_setter_none.
  - intros new self'. apply data_setter_ok_inv.
Qed.

(** C8.  When one of the keys trial_number, prompt, date_and_time and
    dat_file_name is missing from the record, [addMeta] does not return:
    it leaves the recording as it was and ends in [sys.exit()], or in
    the error of its own handler when the recording has no string under
    'filename'.  When the four keys are present it returns, the four
    pairs are in the metadata afterwards, and every other key of the
    metadata is what it was, whatever else the record holds. *)
Theorem addMeta_required_keys (d : gmap string pyvalue)
    (self : Recording.t T) :
  ((∃ key, key ∈ requiredMetaKeys ∧ d !! key = None) →
   (addMeta (MetaDict d) self).1 = self
   ∧ ∃ e, (addMeta (MetaDict d) self).2 = Raise e
          ∧ e = match Recording.meta self !! "filename" with
                | Some (VStr _) => SystemExit
                | Some _ => TypeError
                | None => KeyError "filename"
                end)
  ∧ ((∀ key, key ∈ requiredMetaKeys → is_Some (d !! key)) →
     (addMeta (MetaDict d) self).2 = Ok tt
     ∧ ∀ key, Recording.meta (addMeta (MetaDict d) self).1 !! key
              = if decide (key ∈ requiredMetaKeys) then d !! key
                else Recording.meta self !! key).
Proof.
  split.
  - intros (key & Hkey & Hnone). by apply (addMeta_incomplete d self key).
  - intros Hall.
    destruct (addMeta_complete d self Hall) as (Hok & _ & _ & _ & Hmeta).
    done.
Qed.

End Stated.

(** ** The decoder on any buffer *)

Lemma ravel_unravel (shp : list nat) (m : nat) :
  m < prod shp → ravel shp (unravel shp m) = m.
Proof.
  revert m. induction shp as [|n shp IH]; intros m Hm.
  - cbn in *. lia.
  - cbn [unravel ravel]. cbn in Hm. fold (prod shp) in Hm.
    assert (0 < prod shp) by nia.
    rewrite IH by (apply Nat.mod_upper_bound; lia).
    pose proof (Nat.div_mod_eq m (prod shp)). lia.
Qed.

Lemma gather_all {T : Type} (l : list T) : gather (seq 0 (length l)) l = l.
Proof.
  unfold gather. induction l as [|x l IH]; [done |].
  cbn [length seq omap list_omap]. cbn. f_equal.
  rewrite <- fmap_S_seq. rewrite <- IH at 2.
  apply list_omap_ext. apply Forall2_fmap_l, Forall_Forall2_diag.
  by apply Forall_forall.
Qed.

Lemma transpose_offset_inj (shp : list nat) (m m' : nat) :
  m < prod shp → m' < prod shp →
  ravel shp (reverse (unravel (reverse shp) m))
  = ravel shp (reverse (unravel (reverse shp) m')) →
  m = m'.
Proof.
  intros Hm Hm' Heq.
  assert (∀ k, k < prod shp →
               Forall2 lt (reverse (unravel (reverse shp) k)) shp) as Hlt.
  { intros k Hk. rewrite <- (reverse_involutive shp) at 2.
    apply Forall2_reverse, unravel_lt. by rewrite prod_reverse. }
  apply (f_equal (unravel shp)) in Heq.
  rewrite !unravel_ravel in Heq by auto.
  apply (f_equal reverse) in Heq. rewrite !reverse_involutive in Heq.
  apply (f_equal (ravel (reverse shp))) in Heq.
  by rewrite !ravel_unravel in Heq by (by rewrite prod_reverse).
Qed.

(** Transposing moves every element to one place of the result. *)
Lemma transpose_Permutation {T : Type} (a : ndarray T) :
  well_formed a → flat (transpose a) ≡ₚ flat a.
Proof.
  intros Hwf. unfold transpose. cbn [flat].
  rewrite <- (gather_all (flat a)) at 2. unfold gather.
  apply omap_Permutation. rewrite prod_reverse, Hwf.
  apply submseteq_length_Permutation.
  - apply NoDup_submseteq.
    + apply NoDup_fmap_2_strong; [| apply NoDup_seq].
      intros m m' Hm Hm'. apply elem_of_seq in Hm, Hm'.
      apply transpose_offset_inj; lia.
    + intros k Hk. apply list_elem_of_fmap in Hk as (m & -> & Hm).
      apply elem_of_seq in Hm. apply elem_of_seq.
      pose proof (transpose_offset_lt (shape a) m). lia.
  - by rewrite length_fmap.
Qed.

Section Decode_more.
Context `{Float64} {T : Type}.

(** What a returning decode says about the buffer. *)
Lemma read_3D_ultra_Ok_inv (self self' : ThreeD_Ultrasound.t T)
    (ds : Dataset T) :
  let dims := tag_200d_3301 ds in
  let n := tag_200d_3010 (tag_200d_3020 ds) in
  let buf := tag_200d_300e (tag_200d_3020 ds) in
  length dims = 3 →
  _read_3D_ultra self ds = Ok self' →
  0 < n ∧ ∃ p, length buf = (prod dims + p) * n.
Proof.
  intros dims n buf Hdims. unfold _read_3D_ultra.
  fold dims n buf. rewrite !getitem_frames, !bind_Ok by done.
  set (remainder :=
         (Z.of_nat (length buf) - Z.of_nat (prod dims) * Z.of_nat n)%Z).
  unfold int_truediv.
  destruct (decide (Z.of_nat n = 0)%Z) as [Hn0|Hn0].
  { by destruct (decide (remainder = 0)%Z). }
  rewrite bind_Ok.
  destruct (set_shape_cases
              [(Z.of_nat (prod dims) + remainder ÷ Z.of_nat n)%Z; Z.of_nat n]
              (frombuffer buf)) as [->|(Hpos & Hsize & ->)]; [done |].
  rewrite bind_Ok.
  apply Forall_cons_1 in Hpos as [Hpos _].
  cbn [fmap list_fmap flat frombuffer] in *.
  unfold prod in Hsize. cbn [foldr] in Hsize.
  rewrite Nat2Z.id, Nat.mul_1_r in Hsize.
  set (q := (remainder ÷ Z.of_nat n)%Z) in *.
  assert ((Z.of_nat (prod dims) + q) * Z.of_nat n
          = Z.of_nat (length buf))%Z as Hmul.
  { rewrite <- Hsize, Nat2Z.inj_mul, Z2Nat.id; done. }
  destruct (decide (q < 0)%Z) as [Hq|Hq].
  { rewrite Nat2Z.id, take_rows_short by lia. done. }
  intros _. split; [lia |]. exists (Z.to_nat q).
  apply Nat2Z.inj. rewrite <- Hmul, Nat2Z.inj_mul, Nat2Z.inj_add, Z2Nat.id; lia.
Qed.

(** X1.  With three declared dimensions, [_read_3D_ultra] returns
    exactly when there is at least one frame and the buffer holds a
    whole number [p >= 0] of extra bytes per frame beyond the declared
    frame size; every other buffer makes it raise. *)
Theorem read_3D_ultra_returns_iff (self : ThreeD_Ultrasound.t T)
    (ds : Dataset T) :
  let dims := tag_200d_3301 ds in
  let n := tag_200d_3010 (tag_200d_3020 ds) in
  let buf := tag_200d_300e (tag_200d_3020 ds) in
  length dims = 3 →
  (∃ self', _read_3D_ultra self ds = Ok self')
  ↔ 0 < n ∧ ∃ p, length buf = (prod dims + p) * n.
Proof.
  intros dims n buf Hdims. split.
  - intros [self' Hok]. by apply (read_3D_ultra_Ok_inv self self' ds).
  - intros (Hn & p & Hlen). eexists. by apply (read_3D_ultra_ok self ds p).
Qed.

(** X2.  Whatever the layout of the buffer, the tensor that
    [_read_3D_ultra] returns is a rearrangement of the first
    [frame_size * frame_count] bytes of the buffer: none of them is
    dropped or repeated and no later byte is read; its shape is the
    frame count followed by the declared dimensions in reverse. *)
Theorem read_3D_ultra_rearranges (self : ThreeD_Ultrasound.t T)
    (ds : Dataset T) (p : nat) :
  let dims := tag_200d_3301 ds in
  let n := tag_200d_3010 (tag_200d_3020 ds) in
  let buf := tag_200d_300e (tag_200d_3020 ds) in
  length dims = 3 → 0 < n → length buf = (prod dims + p) * n →
  ∃ out,
    _read_3D_ultra self ds = Ok (loaded self ds out)
    ∧ shape out = n :: reverse dims
    ∧ well_formed out
    ∧ flat out ≡ₚ take (prod dims * n) buf.
Proof.
  intros dims n buf Hdims Hn Hlen.
  set (a := mk_ndarray (dims ++ [n]) (take (prod dims * n) buf)).
  assert (well_formed a) as Hwf.
  { unfold well_formed, a. cbn [flat shape].
    rewrite prod_app, length_take_le by nia. unfold prod. cbn. lia. }
  exists (transpose a). split_and!.
  - by apply (read_3D_ultra_ok self ds p).
  - cbn [transpose shape a]. by rewrite reverse_app.
  - by apply transpose_well_formed.
  - by apply transpose_Permutation.
Qed.


(** *** Loading *)

Lemma getData_raises (dcmread : string → result (Dataset T))
    (self : ThreeD_Ultrasound.t T) :
  ∃ e, _getData dcmread self = Raise e.
Proof.
  unfold _getData. destruct (meta_filename self) as [f|]; [| by eexists].
  rewrite bind_Ok. destruct (dcmread f) as [ds|e]; [| by eexists].
  rewrite bind_Ok. destruct (SequenceOfUltrasoundRegions ds =? 3); by eexists.
Qed.

Lemma init_Ok_inv (dcmread : string → result (Dataset T)) (preload : bool)
    (off : float64) (filename : option string) (self : ThreeD_Ultrasound.t T) :
  ThreeD_Ultrasound.__init__ dcmread preload off filename = Ok self →
  self = ThreeD_Ultrasound.mk filename None None None None None None None off
  ∧ (preload = false ∨ filename = None ∨ filename = Some "").
Proof.
  unfold ThreeD_Ultrasound.__init__. destruct filename as [f|].
  2:{ intros [= <-]. eauto. }
  destruct (bool_decide (f ≠ "")) eqn:Hf; destruct preload; cbn [andb].
  - destruct (getData_raises dcmread
                (ThreeD_Ultrasound.mk (Some f) None None None None None None
                                      None off)) as [e ->].
    done.
  - intros [= <-]. eauto.
  - apply bool_decide_eq_false in Hf. intros [= <-]. split; [done |].
    right. right. f_equal. by destruct (decide (f = "")).
  - intros [= <-]. eauto.
Qed.


(** X5.  The constructor of [ThreeD_Ultrasound] returns exactly when no
    preloading is asked for or no file is named; the object it returns
    holds no data and no time vector, only the file name and the time
    offset it was given. *)
Theorem init_returns_iff (dcmread : string → result (Dataset T))
    (preload : bool) (off : float64) (filename : option string) :
  ((∃ self, ThreeD_Ultrasound.__init__ dcmread preload off filename = Ok self)
   ↔ preload = false ∨ filename = None ∨ filename = Some "")
  ∧ ∀ self, ThreeD_Ultrasound.__init__ dcmread preload off filename = Ok self →
            _data self = None ∧ timevector self = None
            ∧ meta_filename self = filename ∧ timeOffset self = off.
Proof.
  split.
  - split.
    + intros [self Hself]. by apply init_Ok_inv in Hself as [_ ?].
    + unfold ThreeD_Ultrasound.__init__.
      intros [-> | [-> | ->]]; [| by eexists..].
      destruct filename as [f|]; [| by eexists].
      rewrite andb_false_r. by eexists.
  - intros self Hself. by apply init_Ok_inv in Hself as [-> _].
Qed.

End Decode_more.

(** ** The session notes on any row *)

Section Notes_more.
Context `{Float64} `{Libs} {T : Type}.
Import ThreeD_UltrasoundRecording.

(** What a returning [meta_token] has produced. *)
Lemma meta_token_Ok_inv (element : list pyvalue)
    (token : option (gmap string pyvalue)) :
  meta_token element = Ok token →
  (length element ≤ 5 ∧ token = None)
  ∨ (5 < length element
     ∧ ∃ e0 e1 d name,
         token = Some (<["trial_number" := e0]>
                        (<["prompt" := e1]>
                          (<["date_and_time" := VDate d]>
                            {[ "dat_file_name" := VStr name ]})))).
Proof.
  unfold meta_token. destruct (decide (5 < length element)) as [Hlen|Hlen].
  2:{ intros [= <-]. left. split; [lia | done]. }
  intros Hok. right. split; [done |].
  destruct (getitem element 4) as [e4|]; [| done]. rewrite bind_Ok in Hok.
  destruct (match strptime_field e4 with Ok _ => _ | Raise _ => _ end)
    as [[d file_path]|]; [| done].
  rewrite bind_Ok in Hok.
  destruct (getitem element 0) as [e0|]; [| done]. rewrite bind_Ok in Hok.
  destruct (getitem element 1) as [e1|]; [| done]. rewrite bind_Ok in Hok.
  destruct (windows_name file_path) as [name|]; [| done].
  rewrite bind_Ok in Hok. injection Hok as <-. by exists e0, e1, d, name.
Qed.

Lemma meta_token_short (element : list pyvalue) :
  length element ≤ 5 → meta_token element = Ok None.
Proof. intros Hlen. unfold meta_token. rewrite decide_False; [done | lia]. Qed.


(** X6.  Rows of at most five fields take no part in the parse of the
    notes: the result, error included, is that of the longer rows
    alone, and a parse that returns gives one record per longer row. *)
Theorem meta_tokens_short_rows (elements : list (list pyvalue)) :
  let long := filter (λ element, 5 < length element) elements in
  meta_tokens elements = meta_tokens long
  ∧ ∀ tokens, meta_tokens elements = Ok tokens → length tokens = length long.
Proof.
  cbn zeta. induction elements as [|element rest [IHeq IHlen]].
  { split; [done |]. by intros tokens [= <-]. }
  rewrite filter_cons. destruct (decide (5 < length element)) as [Hlen|Hlen].
  - cbn [meta_tokens]. rewrite <- IHeq. split; [done |].
    intros tokens Hok.
    destruct (meta_token element) as [token|] eqn:Htoken; [| done].
    rewrite bind_Ok in Hok.
    destruct (meta_tokens rest) as [tokens'|]; [| done].
    rewrite bind_Ok in Hok. injection Hok as <-.
    apply meta_token_Ok_inv in Htoken as [[? _]|(_ & ? & ? & ? & ? & ->)];
      [lia |].
    cbn [length]. f_equal. by apply IHlen.
  - cbn [meta_tokens]. rewrite meta_token_short by lia. rewrite bind_Ok.
    rewrite <- IHeq. split.
    + by destruct (meta_tokens rest).
    + intros tokens Hok. destruct (meta_tokens rest) as [tokens'|]; [| done].
      rewrite bind_Ok in Hok. injection Hok as <-. by apply IHlen.
Qed.


(** X8.  The fallback covers a time stamp that does not parse, not a
    field of another type: when field 5 or field 6 of a longer row is
    not a string, the TypeError of [strptime] or of [PureWindowsPath]
    is not caught and ends the whole parse. *)
Theorem meta_token_not_a_string (element : list pyvalue) (v4 v5 : pyvalue) :
  5 < length element →
  element !! 4 = Some v4 → element !! 5 = Some v5 →
  is_str v4 && is_str v5 = false →
  meta_token element = Raise TypeError
  ∧ ∀ rest, meta_tokens (element :: rest) = Raise TypeError.
Proof.
  intros Hlen H4 H5 Hstr.
  assert (meta_token element = Raise TypeError) as Hraise.
  { unfold meta_token, getitem. rewrite decide_True by done.
    rewrite H4, bind_Ok, H5.
    destruct (element !! 0) as [e0|] eqn:Hfirst.
    2:{ apply lookup_ge_None in Hfirst. lia. }
    destruct (element !! 1) as [e1|] eqn:Hsecond.
    2:{ apply lookup_ge_None in Hsecond. lia. }
    destruct v4 as [| | |a|]; try done. cbn [strptime_field].
    destruct v5 as [| | |b|]; [destruct (strptime a); done .. | done |
                                destruct (strptime a); done]. }
  split; [done |]. intros rest. by apply meta_tokens_raise.
Qed.

End Notes_more.

(** ** Recordings, continued *)

Section Recording_more.
Context `{Float64} `{Libs} {T : Type}.
Import ThreeD_UltrasoundRecording.


(** X26.  The constructor of a recording excludes it exactly when the
    audio or the volume file is missing, or the video file is missing
    and video is required; it keeps the basename and the path it was
    given and attaches no modality (the constructor of the base class
    being as modelled above). *)
Theorem init_exclusion_policy (fs : filesystem T) (path : pathlike)
    (basename : string) (requireVideo : bool) :
  let file ext := os_path_join (fspath path) (String.append basename ext) in
  let self := __init__ fs path basename requireVideo in
  (excluded self = false
   ↔ isfile fs (file ".wav") = true ∧ isfile fs (file ".DCM") = true
     ∧ (requireVideo = true → isfile fs (file ".avi") = true))
  ∧ Recording.basename self = basename
  ∧ Recording.path self = path
  ∧ modalities self = ∅.
Proof.
  cbn zeta. unfold __init__.
  destruct (isfile fs (os_path_join _ (String.append basename ".wav")));
    destruct (isfile fs (os_path_join _ (String.append basename ".DCM")));
    destruct (isfile fs (os_path_join _ (String.append basename ".avi")));
    destruct requireVideo; cbn; split_and!; try done;
    split; try done; intros (? & ? & Hvideo); try done;
    by specialize (Hvideo eq_refl).
Qed.

(** X27.  [generateUltrasoundRecording] returns only for a directory
    given as a [str], and then what the constructor builds without
    requiring video; a [Path] stops at the concatenation of its log
    message.  So no directory serves both this function and the
    [directory / "DCM"] of [generateRecordingList], which calls it with
    its own argument. *)
Theorem generateUltrasoundRecording_str_only (fs : filesystem T)
    (basename : string) (directory : pathlike) :
  (∀ r, generateUltrasoundRecording fs basename directory = Ok r
        ↔ (∃ s, directory = PStr s)
          ∧ r = __init__ fs directory basename false)
  ∧ ((∃ r, generateUltrasoundRecording fs basename directory = Ok r) →
     truediv directory "DCM" = Raise TypeError)
  ∧ ((∃ p, truediv directory "DCM" = Ok p) →
     generateUltrasoundRecording fs basename directory = Raise TypeError).
Proof.
  unfold generateUltrasoundRecording. destruct directory as [s|s]; cbn.
  - split_and!.
    + intros r. split.
      * intros [= <-]. eauto.
      * by intros [_ ->].
    + done.
    + by intros [p Hp].
  - split_and!.
    + intros r. split; [done |]. by intros [[s' Hs'] _].
    + by intros [r Hr].
    + done.
Qed.

Lemma update_lookup (d m : gmap string pyvalue)
    (wanted : list (string * pyvalue)) (key : string) :
  wanted_meta d = Some wanted →
  update wanted m !! key
  = if decide (key ∈ requiredMetaKeys) then d !! key else m !! key.
Proof.
  intros Hwanted.
  pose (self := Recording.mk (T := T) false (PStr "") "" m ∅).
  destruct (addMeta_complete d self) as (_ & _ & _ & _ & Hmeta).
  { intros k Hk. destruct (d !! k) eqn:Hd; [done |].
    assert (wanted_meta d = None) by (apply wanted_meta_None; eauto).
    congruence. }
  specialize (Hmeta key). unfold addMeta in Hmeta.
  by rewrite Hwanted in Hmeta.
Qed.

(** X10.  Of two complete records merged one after the other the second
    one wins: the recording is what the second merge alone would have
    made of it; in particular merging the same record twice changes
    nothing more. *)
Theorem addMeta_last_writer (d1 d2 : gmap string pyvalue)
    (self : Recording.t T) :
  (∀ key, key ∈ requiredMetaKeys → is_Some (d1 !! key)) →
  (∀ key, key ∈ requiredMetaKeys → is_Some (d2 !! key)) →
  (addMeta (MetaDict d2) (addMeta (MetaDict d1) self).1).1
  = (addMeta (MetaDict d2) self).1
  ∧ (addMeta (MetaDict d1) (addMeta (MetaDict d1) self).1).1
    = (addMeta (MetaDict d1) self).1.
Proof.
  assert (∀ d d', (∀ key, key ∈ requiredMetaKeys → is_Some (d !! key)) →
                  (∀ key, key ∈ requiredMetaKeys → is_Some (d' !! key)) →
                  (addMeta (MetaDict d') (addMeta (MetaDict d) self).1).1
                  = (addMeta (MetaDict d') self).1) as Hlast.
  { intros d d' Hd Hd'. unfold addMeta.
    destruct (wanted_meta d) as [wanted|] eqn:Hwanted.
    2:{ apply wanted_meta_None in Hwanted as (key & Hkey & Hnone).
        destruct (Hd key Hkey) as [v Hv]. congruence. }
    destruct (wanted_meta d') as [wanted'|] eqn:Hwanted'.
    2:{ apply wanted_meta_None in Hwanted' as (key & Hkey & Hnone).
        destruct (Hd' key Hkey) as [v Hv]. congruence. }
    cbn [fst excluded path basename meta modalities]. f_equal.
    apply map_eq. intros key.
    rewrite !(update_lookup d' _ wanted') by done.
    destruct (decide (key ∈ requiredMetaKeys)); [done |].
    rewrite (update_lookup d _ wanted) by done. by rewrite decide_False. }
  intros H1 H2. split; by apply Hlast.
Qed.

(** *** Attaching the modalities *)

Lemma addModality_cases (name : string) (m : modality T)
    (self : Recording.t T) :
  (modalities self !! name = None
   ∧ addModality name m self
     = (Recording.mk (excluded self) (path self) (basename self) (meta self)
                     (<[name := m]> (modalities self)), Ok tt))
  ∨ (is_Some (modalities self !! name)
     ∧ addModality name m self = (self, Raise DuplicateModality)).
Proof.
  unfold addModality. destruct (modalities self !! name); [right | left]; eauto.
Qed.

(** X11.  Asking [addModalities] to preload the volume of a recording
    that has one fails and attaches nothing, since [_getData] never
    returns. *)
Theorem addModalities_preload_fails (fs : filesystem T)
    (LipVideo_init : bool → pyvalue → result LipVideo) (zero : float64)
    (wavPreload videoPreload : bool) (recording : Recording.t T)
    (ult_file : string) :
  meta recording !! "ult_file" = Some (VStr ult_file) → ult_file ≠ "" →
  ∃ e, addModalities fs LipVideo_init zero wavPreload true videoPreload
         recording
       = (recording, Raise e).
Proof.
  intros Hfile Hname. unfold addModalities, meta_getitem.
  destruct (meta recording !! "basename"); [| by eexists].
  rewrite Hfile, bind_Ok. unfold ThreeD_Ultrasound.__init__.
  rewrite bool_decide_eq_true_2 by done. cbn [andb].
  destruct (getData_raises (dcmread fs)
              (ThreeD_Ultrasound.mk (Some ult_file) None None None None None
                                    None None zero)) as [e ->].
  by eexists.
Qed.

(** X12.  A recording whose volume file is missing is excluded by the
    constructor, and [addModalities] on it stops at the KeyError of
    [meta['ult_file']] and attaches nothing (the constructor of the
    base class being as modelled above). *)
Theorem addModalities_missing_volume (fs : filesystem T)
    (LipVideo_init : bool → pyvalue → result LipVideo) (zero : float64)
    (wavPreload ultPreload videoPreload requireVideo : bool)
    (path : pathlike) (basename : string) :
  let recording := __init__ fs path basename requireVideo in
  isfile fs (os_path_join (fspath path) (String.append basename ".DCM"))
  = false →
  excluded recording = true
  ∧ addModalities fs LipVideo_init zero wavPreload ultPreload videoPreload
      recording
    = (recording, Raise (KeyError "ult_file")).
Proof.
  cbn zeta. intros Hfile. unfold __init__, addModalities, meta_getitem.
  rewrite Hfile.
  destruct (isfile fs (os_path_join _ (String.append basename ".wav")));
    destruct (isfile fs (os_path_join _ (String.append basename ".avi")));
    destruct requireVideo; done.
Qed.

(** X13.  [addModalities] leaves the metadata, the basename and the path
    of a recording alone and keeps every modality it had, whether it
    returns or raises; when it returns, the recording had no ultrasound
    modality before and has one now, which holds no data, and only the
    modalities 'ThreeD_Ultrasound' and 'LipVideo' can have changed
    ([addModality] being as modelled above). *)
Theorem addModalities_attaches (fs : filesystem T)
    (LipVideo_init : bool → pyvalue → result LipVideo) (zero : float64)
    (wavPreload ultPreload videoPreload : bool) (recording : Recording.t T) :
  let after :=
    (addModalities fs LipVideo_init zero wavPreload ultPreload videoPreload
       recording).1 in
  let outcome :=
    (addModalities fs LipVideo_init zero wavPreload ultPreload videoPreload
       recording).2 in
  meta after = meta recording
  ∧ basename after = basename recording
  ∧ path after = path recording
  ∧ (∀ name m, modalities recording !! name = Some m →
               modalities after !! name = Some m)
  ∧ (outcome = Ok tt →
     modalities recording !! "ThreeD_Ultrasound" = None
     ∧ (∃ u, modalities after !! "ThreeD_Ultrasound" = Some (Ultrasound u)
             ∧ _data u = None)
     ∧ ∀ name, name ≠ "ThreeD_Ultrasound" → name ≠ "LipVideo" →
               modalities after !! name = modalities recording !! name).
Proof.
  cbn zeta. unfold addModalities.
  destruct (meta_getitem recording "basename"); [| done].
  destruct (meta_getitem recording "ult_file") as [ult_file|]; [| done].
  destruct (_ ≫= _) as [ultrasound|] eqn:Hinit; [| done].
  assert (_data ultrasound = None) as Hdata.
  { destruct ult_file; try done; rewrite bind_Ok in Hinit;
      by apply init_Ok_inv in Hinit as [-> _]. }
  destruct (addModality_cases "ThreeD_Ultrasound" (Ultrasound ultrasound)
              recording) as [[Hnew ->]|[_ ->]]; [| done].
  set (r1 := Recording.mk _ _ _ _ _).
  assert (∀ name m, modalities recording !! name = Some m →
                    modalities r1 !! name = Some m) as Hkeep.
  { intros name m Hm. cbn.
    destruct (decide (name = "ThreeD_Ultrasound")) as [->|].
    - congruence.
    - by rewrite lookup_insert_ne. }
  assert (modalities r1 !! "ThreeD_Ultrasound" = Some (Ultrasound ultrasound))
    as Hultra by apply lookup_insert_eq.
  destruct (meta_getitem r1 "video_exists") as [video_exists|]; [| done].
  destruct (truthy video_exists).
  2:{ cbn [fst snd]. split_and!; [done.. |]. intros _.
      split_and!; [done | eauto |].
      intros name Hname _. cbn. by rewrite lookup_insert_ne. }
  destruct (meta_getitem r1 "video_file") as [video_file|]; [| done].
  destruct (LipVideo_init videoPreload video_file) as [video|]; [| done].
  destruct (addModality_cases "LipVideo" (Video video) r1)
    as [[Hnew' ->]|[_ ->]]; [| done].
  cbn [fst snd meta basename path modalities]. split_and!; [done.. | |].
  - intros name m Hm. destruct (decide (name = "LipVideo")) as [->|].
    + apply Hkeep in Hm. congruence.
    + rewrite lookup_insert_ne by done. by apply Hkeep.
  - intros _. split_and!; [done | |].
    + exists ultrasound. by rewrite lookup_insert_ne.
    + intros name Hname Hname'. cbn. by rewrite !lookup_insert_ne.
Qed.

End Recording_more.

(** ** The exclusion list *)

Section Exclusion_more.
Context `{Float64} `{Libs} {T : Type}.

Lemma elem_of_first_fields (rows : list (list string)) (name : string) :
  name ∈ first_fields rows ↔ ∃ comment, (name :: comment) ∈ rows.
Proof.
  unfold first_fields. rewrite list_elem_of_omap. split.
  - intros (row & Hrow & Hhead). destruct row as [|x comment]; [done |].
    injection Hhead as ->. by exists comment.
  - intros (comment & Hrow). by exists (name :: comment).
Qed.

Lemma first_fields_rows (rows : list (list string)) (names : list string) :
  mapM_result (λ row, getitem row 0) rows = Ok names →
  first_fields rows = names ∧ Forall (λ row, row ≠ []) rows.
Proof.
  revert names. induction rows as [|row rows IH]; intros names.
  { by intros [= <-]. }
  cbn [mapM_result]. destruct row as [|x comment]; [done |].
  change (getitem (x :: comment) 0) with (Ok x). rewrite bind_Ok.
  destruct (mapM_result _ rows) as [names'|]; [| done].
  rewrite bind_Ok. intros [= <-]. destruct (IH names' eq_refl) as [<- Hrows].
  split; [done |]. by constructor.
Qed.

Lemma blank_row_IndexError (rows : list (list string)) :
  [] ∈ rows →
  mapM_result (λ row, getitem row 0) rows = Raise IndexError.
Proof.
  induction rows as [|row rows IH]; intros Hblank.
  { by apply elem_of_nil in Hblank. }
  destruct row as [|x comment]; [done |].
  apply elem_of_cons in Hblank as [?|Hblank]; [done |].
  cbn [mapM_result]. change (getitem (x :: comment) 0) with (Ok x).
  rewrite bind_Ok. by rewrite IH.
Qed.

Lemma set_exclusions_rows (fs : filesystem T) (name : string)
    (rows : list (list string)) (recordings : list (Recording.t T)) :
  read_tsv fs name = Ok rows →
  set_exclusions_from_file fs (Some name) recordings
  = ((λ recording,
        if bool_decide (basename recording ∈ first_fields rows)
        then exclude recording else recording) <$> recordings, Ok tt).
Proof. intros Hrows. unfold set_exclusions_from_file. by rewrite Hrows. Qed.

(** X14.  With a readable list, [set_exclusions_from_file] returns and
    keeps the recordings in place; a recording is excluded afterwards
    exactly when it was before or some row starts with its basename,
    whatever the comment that follows, and nothing else of it changes
    ([exclude] being as modelled above). *)
Theorem set_exclusions_from_file_marks (fs : filesystem T) (name : string)
    (rows : list (list string)) (recordings : list (Recording.t T)) :
  read_tsv fs name = Ok rows →
  let after := (set_exclusions_from_file fs (Some name) recordings).1 in
  (set_exclusions_from_file fs (Some name) recordings).2 = Ok tt
  ∧ length after = length recordings
  ∧ ∀ i r, recordings !! i = Some r →
      ∃ r', after !! i = Some r'
            ∧ path r' = path r ∧ basename r' = basename r
            ∧ meta r' = meta r ∧ modalities r' = modalities r
            ∧ (excluded r' = true
               ↔ excluded r = true
                 ∨ ∃ comment, (basename r :: comment) ∈ rows).
Proof.
  intros Hrows. cbn zeta. rewrite (set_exclusions_rows fs name rows) by done.
  cbn [fst snd]. split_and!; [done | by rewrite length_fmap |].
  intros i r Hr. rewrite list_lookup_fmap, Hr. cbn. eexists. split; [done |].
  rewrite <- elem_of_first_fields. case_bool_decide as Hin; cbn.
  - split_and!; [done.. |]. split; [by right | done].
  - split_and!; [done.. |]. split; [by left | by intros [?|?]].
Qed.

(** X15.  Applying the same exclusion list a second time changes
    nothing, and without a file name no recording changes at all. *)
Theorem set_exclusions_from_file_idempotent (fs : filesystem T)
    (filename : option string) (recordings : list (Recording.t T)) :
  let once := (set_exclusions_from_file fs filename recordings).1 in
  (set_exclusions_from_file fs filename once).1 = once
  ∧ (set_exclusions_from_file fs None recordings).1 = recordings.
Proof.
  cbn zeta. unfold set_exclusions_from_file. split.
  - destruct (match filename with Some _ => _ | None => _ end)
      as [exclusion_list|e]; [| done].
    cbn [fst]. rewrite <- list_fmap_compose. apply list_fmap_ext.
    intros i r _. cbn. case_bool_decide as Hin.
    + unfold exclude, set_excluded. cbn. by case_bool_decide.
    + done.
  - cbn [fst]. rewrite <- (list_fmap_id recordings) at 2.
    apply list_fmap_ext. intros i r _. cbn.
    rewrite bool_decide_eq_false_2; [done |]. apply not_elem_of_nil.
Qed.

(** X16.  When [read_file_exclusion_list] returns a list of names, these
    are the names by which [set_exclusions_from_file] excludes for the
    same file, and for a named file it returns only with the level INFO
    switched off. *)
Theorem read_file_exclusion_list_agrees (fs : filesystem T)
    (info_enabled : bool) (filename : option string) (names : list string)
    (recordings : list (Recording.t T)) :
  read_file_exclusion_list fs info_enabled filename = Ok names →
  set_exclusions_from_file fs filename recordings
  = ((λ recording,
        if bool_decide (basename recording ∈ names)
        then exclude recording else recording) <$> recordings, Ok tt)
  ∧ (is_Some filename → info_enabled = false).
Proof.
  unfold read_file_exclusion_list, set_exclusions_from_file.
  destruct filename as [name|].
  2:{ intros [= <-]. split; [done |]. by intros [? ?]. }
  destruct (read_tsv fs name) as [rows|]; [| done]. rewrite !bind_Ok.
  destruct (mapM_result _ rows) as [names'|] eqn:Hnames; [| done].
  rewrite bind_Ok. destruct info_enabled; [done |]. rewrite bind_Ok.
  intros [= <-]. apply first_fields_rows in Hnames as [-> _]. done.
Qed.

(** X17.  The two readers differ on a blank line: the IndexError of
    [row[0]] ends [read_file_exclusion_list], while
    [set_exclusions_from_file] skips the row and returns. *)
Theorem read_file_exclusion_list_blank_row (fs : filesystem T)
    (info_enabled : bool) (name : string) (rows : list (list string))
    (recordings : list (Recording.t T)) :
  read_tsv fs name = Ok rows → [] ∈ rows →
  read_file_exclusion_list fs info_enabled (Some name) = Raise IndexError
  ∧ (set_exclusions_from_file fs (Some name) recordings).2 = Ok tt.
Proof.
  intros Hrows Hblank. split.
  - unfold read_file_exclusion_list. rewrite Hrows, bind_Ok.
    by rewrite blank_row_IndexError.
  - by rewrite (set_exclusions_rows fs name rows).
Qed.

(** X18.  With the level INFO enabled, [read_file_exclusion_list]
    returns for no file at all: it returns exactly when it is given no
    file name. *)
Theorem read_file_exclusion_list_logging (fs : filesystem T)
    (filename : option string) :
  (∃ names, read_file_exclusion_list fs true filename = Ok names)
  ↔ filename = None.
Proof.
  unfold read_file_exclusion_list. destruct filename as [name|].
  2:{ split; eauto. }
  split; [| done]. intros [names Hnames].
  destruct (read_tsv fs name) as [rows|]; [| done]. rewrite bind_Ok in Hnames.
  destruct (mapM_result _ rows) as [names'|]; [| done]. done.
Qed.

End Exclusion_more.

(** ** Coordinates *)

Section Coordinates.
Context {T : Type}.
Import computational.

Lemma rows_of_column (l : list T) :
  rows_of (length l) 1 l = (λ x, [x]) <$> l.
Proof.
  unfold rows_of. apply list_eq. intros i. rewrite !list_lookup_fmap.
  destruct (decide (i < length l)) as [Hi|Hi].
  - rewrite lookup_seq_lt by done. cbn.
    destruct (lookup_lt_is_Some_2 l i Hi) as [x Hx]. rewrite Hx. cbn.
    rewrite Nat.mul_1_r. by rewrite (drop_S _ x) by done.
  - rewrite lookup_seq_ge by lia. by rewrite lookup_ge_None_2 by lia.
Qed.

Lemma interleave_rows (l1 l2 : list T) :
  let rows := zip_with app ((λ x, [x]) <$> l1) ((λ x, [x]) <$> l2) in
  length l1 = length l2 →
  Forall (λ row, length row = 2) rows ∧ length rows = length l1
  ∧ ∀ i x y, l1 !! i = Some x → l2 !! i = Some y → rows !! i = Some [x; y].
Proof.
  cbn zeta. intros Hlen. split_and!.
  - apply Forall_forall. intros row Hrow.
    apply elem_of_zip_with in Hrow as (r1 & r2 & -> & Hr1 & Hr2).
    apply list_elem_of_fmap in Hr1 as (? & -> & _).
    by apply list_elem_of_fmap in Hr2 as (? & -> & _).
  - rewrite length_zip_with, !length_fmap. lia.
  - intros i x y Hx Hy.
    by rewrite lookup_zip_with, !list_lookup_fmap, Hx, Hy.
Qed.

(** X19.  [_combine_coordinates] of two arrays with the same number [n]
    of elements is the [n] by 2 array whose first column is the first
    array and whose second column is the second; arrays of different
    sizes are refused with a ValueError. *)
Theorem combine_coordinates_columns (coord1 coord2 : ndarray T) :
  let n := length (flat coord1) in
  (length (flat coord2) = n →
   ∃ out, _combine_coordinates coord1 coord2 = Ok out
          ∧ shape out = [n; 2] ∧ well_formed out
          ∧ ∀ i, i < n → item out [i; 0] = flat coord1 !! i
                         ∧ item out [i; 1] = flat coord2 !! i)
  ∧ (length (flat coord2) ≠ n →
     _combine_coordinates coord1 coord2 = Raise ValueError).
Proof.
  cbn zeta. unfold _combine_coordinates, concatenate_axis1, reshape_column.
  cbn [shape flat]. split.
  - intros Hlen. rewrite decide_True by done. eexists. split; [done |].
    cbn [shape flat]. rewrite !rows_of_column.
    destruct (interleave_rows (flat coord1) (flat coord2))
      as (Hrows & Hn & Hrow); [done |].
    split; [done |]. split.
    + unfold well_formed. cbn [shape flat].
      rewrite (length_concat_uniform _ 2), Hn by done.
      unfold prod. cbn. lia.
    + intros i Hi.
      destruct (lookup_lt_is_Some_2 (flat coord1) i Hi) as [x Hx].
      destruct (lookup_lt_is_Some_2 (flat coord2) i) as [y Hy]; [lia |].
      unfold item. cbn [shape flat].
      rewrite !decide_True by (repeat constructor; lia).
      replace (ravel [length (flat coord1); 1 + 1] [i; 0]) with (i * 2 + 0)
        by (cbn; lia).
      replace (ravel [length (flat coord1); 1 + 1] [i; 1]) with (i * 2 + 1)
        by (cbn; lia).
      rewrite !(concat_lookup_uniform _ 2) by (done || lia).
      rewrite (Hrow i x y Hx Hy), Hx, Hy. done.
  - intros Hlen. by rewrite decide_False.
Qed.

End Coordinates.

(** ** The boundary animator *)

Section Animation.
Context `{Matplotlib}.
Import BoundaryAnimator.

Lemma move_ok (x : list float64) (begin : float64) (saved : list Region)
    (todo : list AnimatableBoundary) (i : nat) (seg : SatInterval) :
  i + length todo ≤ length saved →
  move x begin saved i todo seg
  = ((λ boundary, mk_AnimatableBoundary (axes boundary) x) <$> todo,
     Nat.iter (length todo) (λ seg, set_begin seg begin) seg,
     Ok tt).
Proof.
  revert i seg. induction todo as [|boundary todo IH]; intros i seg Hlen.
  { done. }
  cbn [move length] in *.
  destruct (lookup_lt_is_Some_2 saved i) as [region ->]; [lia |].
  rewrite IH by lia. cbn [fmap list_fmap]. do 2 f_equal.
  by rewrite Nat.iter_succ_r.
Qed.

Lemma on_press_cases (me : nat) (event : MouseEvent) (l : option nat)
    (self : t) :
  on_press me event l self = (l, self)
  ∨ (l = None
     ∧ ∃ boundary,
         boundary ∈ boundaries self
         ∧ on_press me event l self
           = (Some me,
              mk (boundaries self) (segment self) (time_offset self)
                 (Some (line boundary, xdata event))
                 (backgrounds self
                  ++ ((λ boundary, copy_from_bbox (axes boundary))
                        <$> boundaries self)))).
Proof.
  unfold on_press. destruct l as [holder|]; [by left |].
  destruct (negb (is_inaxes self event)); [by left |].
  destruct (List.find _ (boundaries self)) as [boundary|] eqn:Hfind;
    [| by left].
  right. split; [done |]. exists boundary. split; [| done].
  apply find_some in Hfind as [Hin _]. by apply list_elem_of_In.
Qed.

Lemma deliver_consistent (c : canvas) (me : nat) (cb : callback)
    (event : MouseEvent) :
  consistent c →
  (deliver c me cb event).2 = Ok tt ∧ consistent (deliver c me cb event).1.
Proof.
  intros Hc. unfold deliver.
  destruct (animators c !! me) as [self|] eqn:Hself; [| done].
  destruct (Hc me self Hself) as [Hlines Hstate].
  assert (me < length (animators c)) as Hme by by eapply lookup_lt_Some.
  destruct cb.
  - (* a press *)
    destruct (on_press_cases me event (lock c) self)
      as [->|(Hfree & boundary & Hin & ->)].
    { cbn. split; [done |]. rewrite list_insert_id by done. by destruct c. }
    cbn [fst snd]. split; [done |]. intros k other Hother.
    cbn [lock animators] in *.
    destruct (decide (k = me)) as [->|Hk].
    + rewrite list_lookup_insert_eq in Hother by done.
      injection Hother as <-. cbn [boundaries]. split; [done |].
      rewrite decide_True by done.
      rewrite Hfree, decide_False in Hstate by done.
      destruct Hstate as [_ Hnone]. split.
      * exists (line boundary), (xdata event). split; [done |].
        rewrite Forall_forall in Hlines. by apply Hlines.
      * cbn [backgrounds]. by rewrite Hnone, length_app, length_fmap.
    + rewrite list_lookup_insert_ne in Hother by done.
      destruct (Hc k other Hother) as [Hlines' Hstate'].
      split; [done |]. rewrite Hfree, decide_False in Hstate' by done.
      rewrite decide_False by congruence. done.
  - (* a motion *)
    unfold on_motion. case_bool_decide as Hlock.
    2:{ cbn. split; [done |]. rewrite list_insert_id by done. by destruct c. }
    rewrite decide_True in Hstate by done.
    destruct Hstate as [(x0 & xpress & Hpress & Hx0) Hsaved].
    destruct (negb (is_inaxes self event)).
    { cbn. split; [done |]. rewrite list_insert_id by done. by destruct c. }
    rewrite Hpress. destruct x0 as [|first x0]; [done |].
    cbn [lookup list_lookup].
    destruct (is_legal_value _ _).
    2:{ cbn. split; [done |]. rewrite list_insert_id by done. by destruct c. }
    rewrite move_ok by (cbn; lia). cbn [fst snd]. split; [done |].
    intros k other Hother. cbn [lock animators] in *.
    destruct (decide (k = me)) as [->|Hk].
    + rewrite list_lookup_insert_eq in Hother by done.
      injection Hother as <-. cbn [boundaries]. split.
      * apply Forall_fmap, Forall_true. done.
      * rewrite decide_True by done. split.
        -- by exists (first :: x0), xpress.
        -- cbn [backgrounds boundaries]. by rewrite length_fmap.
    + rewrite list_lookup_insert_ne in Hother by done.
      by apply Hc.
  - (* a release *)
    unfold on_release. case_bool_decide as Hlock.
    2:{ cbn. split; [done |]. rewrite list_insert_id by done. by destruct c. }
    cbn [fst snd]. split; [done |]. intros k other Hother.
    cbn [lock animators] in *.
    destruct (decide (k = me)) as [->|Hk].
    + rewrite list_lookup_insert_eq in Hother by done.
      injection Hother as <-. done.
    + rewrite list_lookup_insert_ne in Hother by done.
      destruct (Hc k other Hother) as [Hlines' Hstate'].
      split; [done |]. rewrite decide_False in Hstate' by congruence. done.
Qed.

(** X20.  From a canvas on which every line has x data, the lock is
    held by an animator that is being dragged and the others are at
    rest (as after the constructors), no series of calls of the
    callbacks of any of the animators raises: a motion always finds the
    position of the press and a saved background for every boundary.
    The canvas stays that way, and at most one animator at a time holds
    the position of a press. *)
Theorem animation_never_raises (c : canvas)
    (calls : list (nat * callback * MouseEvent)) :
  consistent c →
  (deliver_all c calls).2 = Ok tt
  ∧ consistent (deliver_all c calls).1
  ∧ ∀ j k a b,
      animators (deliver_all c calls).1 !! j = Some a →
      animators (deliver_all c calls).1 !! k = Some b →
      is_Some (press a) → is_Some (press b) → j = k.
Proof.
  intros Hc.
  assert ((deliver_all c calls).2 = Ok tt
          ∧ consistent (deliver_all c calls).1) as [Hok Hafter].
  { revert c Hc. induction calls as [|[[me cb] event] calls IH]; intros c Hc.
    { done. }
    cbn [deliver_all].
    destruct (deliver_consistent c me cb event Hc) as [Hok Hnext].
    destruct (deliver c me cb event) as [c' [[]|e]]; [| done].
    by apply IH. }
  split_and!; [done.. |].
  intros j k a b Ha Hb [pa Hpa] [pb Hpb].
  destruct (Hafter j a Ha) as [_ Hja]. destruct (Hafter k b Hb) as [_ Hkb].
  destruct (decide (lock _ = Some j)) as [Hj|_].
  2:{ destruct Hja as [Hnone _]. congruence. }
  destruct (decide (lock _ = Some k)) as [Hk|_].
  2:{ destruct Hkb as [Hnone _]. congruence. }
  congruence.
Qed.

(** X21.  A motion over the axes of the animator that holds the lock
    returns and keeps the lock and the position of the press; when the
    new beginning is legal for the interval, every line of the animator
    is given the x data of the line that was pressed, shifted by the
    distance from the press, and otherwise nothing changes; the release
    leaves the lines where they are. *)
Theorem on_motion_moves_all (me : nat) (event : MouseEvent) (self : t)
    (x0 : list float64) (first xpress : float64) :
  press self = Some (x0, xpress) → x0 !! 0 = Some first →
  length (boundaries self) ≤ length (backgrounds self) →
  is_inaxes self event = true →
  let dx := float_sub (xdata event) xpress in
  let begin := float_add (float_add first dx) (time_offset self) in
  let after := (on_motion me event (Some me) self).1.2 in
  (on_motion me event (Some me) self).2 = Ok tt
  ∧ (on_motion me event (Some me) self).1.1 = Some me
  ∧ press after = press self
  ∧ (if is_legal_value (segment self) begin
     then boundaries after
          = (λ boundary,
               mk_AnimatableBoundary (axes boundary)
                 ((λ x, float_add x dx) <$> x0)) <$> boundaries self
     else after = self)
  ∧ boundaries (on_release me event (Some me) after).2 = boundaries after.
Proof.
  intros Hpress Hfirst Hsaved Hin. cbn zeta. unfold on_motion.
  rewrite bool_decide_eq_true_2 by done. rewrite Hin, Hpress, Hfirst.
  cbn [negb]. unfold on_release. rewrite bool_decide_eq_true_2 by done.
  destruct (is_legal_value _ _); [| done].
  rewrite move_ok by (cbn; lia). done.
Qed.

End Animation.

(** ** The annotator window *)

Section Annotator.
Context `{Float64} `{Libs} {T : Type}.
Import Pd3dQtAnnotator.
Variable update update_ui :
  Pd3dQtAnnotator.t T → list (Recording.t T) * result unit.
Variable LipVideo_release : LipVideo → result LipVideo.

Lemma release_cursor (self : Pd3dQtAnnotator.t T) :
  index (release LipVideo_release self).1 = index self
  ∧ max_index (release LipVideo_release self).1 = max_index self.
Proof.
  unfold release. by destruct (_ ≫= _) as [[i recording]|].
Qed.

Lemma redraw_cursor (self : Pd3dQtAnnotator.t T) :
  index (redraw update update_ui self).1 = index self
  ∧ max_index (redraw update update_ui self).1 = max_index self.
Proof.
  unfold redraw. destruct (update self) as [l [[]|e]]; [| done].
  by destruct (update_ui _) as [l' outcome].
Qed.

Lemma clicked_in_range (b : button) (self : Pd3dQtAnnotator.t T) :
  in_range self →
  in_range (clicked update update_ui LipVideo_release b self).1
  ∧ max_index (clicked update update_ui LipVideo_release b self).1
    = max_index self.
Proof.
  intros [Hlow Hhigh]. unfold in_range.
  pose proof (release_cursor self) as [Hi Hm].
  destruct b; cbn [clicked]; [unfold next | unfold prev].
  - destruct (Z.ltb_spec (index self) (max_index self - 1)); [| done].
    destruct (release LipVideo_release self) as [self' [[]|e]];
      cbn [fst] in Hi, Hm.
    + destruct (redraw_cursor
                  (Pd3dQtAnnotator.mk (index self' + 1) (max_index self')
                                      (recordings self')))
        as [-> ->].
      cbn [index max_index]. lia.
    + cbn [fst]. lia.
  - destruct (Z.ltb_spec 0 (index self)); [| done].
    destruct (release LipVideo_release self) as [self' [[]|e]];
      cbn [fst] in Hi, Hm.
    + destruct (redraw_cursor
                  (Pd3dQtAnnotator.mk (index self' - 1) (max_index self')
                                      (recordings self')))
        as [-> ->].
      cbn [index max_index]. lia.
    + cbn [fst]. lia.
Qed.

(** X22.  From the constructor on, through every series of clicks on
    Next and Previous, whether the calls return or raise, [max_index]
    stays the number of recordings the window was given and the cursor
    stays on one of them (on 0 when there are none). *)
Theorem navigation_in_range (recordings : list (Recording.t T))
    (buttons : list button) :
  let self :=
    (clicks update update_ui LipVideo_release buttons
            (Pd3dQtAnnotator.__init__ recordings)).1 in
  max_index self = Z.of_nat (length recordings)
  ∧ (0 ≤ index self)%Z
  ∧ (index self < max_index self ∨ recordings = [] ∧ index self = 0)%Z.
Proof.
  cbn zeta.
  assert (∀ self,
            in_range self →
            in_range (clicks update update_ui LipVideo_release buttons self).1
            ∧ max_index (clicks update update_ui LipVideo_release buttons
                           self).1
              = max_index self) as Hall.
  { induction buttons as [|b buttons IH]; intros self Hself; [done |].
    cbn [clicks].
    destruct (clicked_in_range b self Hself) as [Hnext Hmax].
    destruct (clicked _ _ _ b self) as [self' [[]|e]]; cbn [fst] in *.
    - destruct (IH self' Hnext) as [? ->]. done.
    - done. }
  destruct (Hall (Pd3dQtAnnotator.__init__ recordings)) as [[Hlow Hhigh] Hmax].
  { unfold in_range, Pd3dQtAnnotator.__init__. cbn. lia. }
  rewrite Hmax. cbn [Pd3dQtAnnotator.__init__ max_index].
  split_and!; [done.. |].
  destruct Hhigh as [Hhigh|Hzero].
  - left. by rewrite Hmax in Hhigh.
  - destruct recordings as [|r l]; [by right |]. left. rewrite Hzero. cbn. lia.
Qed.

Lemma position_nat {X : Type} (l : list X) (i : nat) :
  i < length l → position l (Z.of_nat i) = Ok i.
Proof.
  intros Hi. unfold position.
  destruct (Z.ltb_spec (Z.of_nat i) 0); [lia |].
  destruct (Z.leb_spec 0 (Z.of_nat i)); [| lia].
  destruct (Z.ltb_spec (Z.of_nat i) (Z.of_nat (length l))); [| lia].
  cbn. by rewrite Nat2Z.id.
Qed.

Lemma release_volume (self : Pd3dQtAnnotator.t T) (i : nat)
    (r : Recording.t T) :
  index self = Z.of_nat i → recordings self !! i = Some r →
  match modalities r !! "ThreeD_Ultrasound" with
  | Some (Ultrasound u) =>
      ∃ u', _data u' = None
            ∧ release LipVideo_release self
              = (Pd3dQtAnnotator.mk (index self) (max_index self)
                    (<[i := Recording.mk (excluded r) (path r) (basename r)
                              (meta r)
                              (<["ThreeD_Ultrasound" := Ultrasound u']>
                                 (modalities r))]> (recordings self)),
                 Ok tt)
  | Some (Video _) => True
  | None =>
      release LipVideo_release self
      = (self, Raise (KeyError "ThreeD_Ultrasound"))
  end.
Proof.
  intros Hindex Hr. unfold release.
  rewrite Hindex, position_nat by by eapply lookup_lt_Some.
  rewrite bind_Ok. unfold getitem. rewrite Hr, bind_Ok.
  destruct (modalities r !! "ThreeD_Ultrasound") as [[u|v]|]; [| done..].
  rewrite bind_Ok.
  destruct (data_setter_none u) as (u' & Hset & Hdata). rewrite Hset.
  rewrite !bind_Ok. by exists u'.
Qed.

(** X23.  When [next] moves on from a recording with an ultrasound
    modality, the redrawing starts from the cursor one further and with
    the data of that modality dropped, whether it was loaded or not (the
    setter takes [None] in every state); on a recording without that
    modality [next] stops at the KeyError, the cursor stays and nothing
    is redrawn. *)
Theorem next_releases_volume (self : Pd3dQtAnnotator.t T) (i : nat)
    (r : Recording.t T) :
  index self = Z.of_nat i → recordings self !! i = Some r →
  (index self < max_index self - 1)%Z →
  (∀ u, modalities r !! "ThreeD_Ultrasound" = Some (Ultrasound u) →
        ∃ u', _data u' = None
              ∧ next update update_ui LipVideo_release self
                = redraw update update_ui
                    (Pd3dQtAnnotator.mk (index self + 1) (max_index self)
                        (<[i := Recording.mk (excluded r) (path r)
                                  (basename r) (meta r)
                                  (<["ThreeD_Ultrasound" := Ultrasound u']>
                                     (modalities r))]> (recordings self))))
  ∧ (modalities r !! "ThreeD_Ultrasound" = None →
     next update update_ui LipVideo_release self
     = (self, Raise (KeyError "ThreeD_Ultrasound"))).
Proof.
  intros Hindex Hr Hlt. pose proof (release_volume self i r Hindex Hr) as Hrel.
  unfold next. destruct (Z.ltb_spec (index self) (max_index self - 1)); [| lia].
  split.
  - intros u Hu. rewrite Hu in Hrel. destruct Hrel as (u' & Hdata & ->).
    by exists u'.
  - intros Hnone. rewrite Hnone in Hrel. by rewrite Hrel.
Qed.

(** X24.  [go_to_recording] with a number [n] that the validator of the
    line edit admits, from 1 to [max_index + 1], puts the cursor on
    [n - 1]; for the largest of them that is [max_index], one past the
    last recording, where [current] is an IndexError. *)
Theorem go_to_recording_range (self : Pd3dQtAnnotator.t T) (n : Z) :
  let after :=
    (go_to_recording update update_ui LipVideo_release (Ok n) self).1 in
  (release LipVideo_release self).2 = Ok tt →
  (1 ≤ n ≤ max_index self + 1)%Z →
  index after = (n - 1)%Z ∧ max_index after = max_index self
  ∧ (n = max_index self + 1 →
     Z.of_nat (length (recordings after)) = max_index self →
     current after = Raise IndexError)%Z.
Proof.
  cbn zeta. intros Hrel Hn. unfold go_to_recording.
  pose proof (release_cursor self) as [Hi Hm].
  destruct (release LipVideo_release self) as [self' [[]|e]]; [| done].
  cbn [fst] in Hi, Hm.
  destruct (redraw_cursor
              (Pd3dQtAnnotator.mk (n - 1) (max_index self') (recordings self')))
    as [Hindex Hmax].
  cbn [index max_index] in Hindex, Hmax.
  split_and!; [done | congruence |]. intros -> Hlen.
  unfold current, position. rewrite Hindex, Hlen.
  destruct (Z.ltb_spec (max_index self + 1 - 1) 0); [lia |].
  destruct (Z.leb_spec 0 (max_index self + 1 - 1)); [| lia].
  destruct (Z.ltb_spec (max_index self + 1 - 1) (max_index self)); [lia |].
  done.
Qed.

End Annotator.

Section Annotations.
Context `{Float64}.
Import Pd3dQtAnnotator.
Variable minus_one : float64.

Lemma default_annotations_Ok (categories tongue_positions : list string)
    (defaults : gmap string annotation) :
  default_annotations minus_one categories tongue_positions = Ok defaults →
  ∃ c p,
  last categories = Some c ∧ last tongue_positions = Some p
  ∧ defaults !! "pdCategory" = Some (AStr c)
  ∧ defaults !! "tonguePosition" = Some (AStr p)
  ∧ defaults !! "pdOnset" = Some (AFloat minus_one)
  ∧ defaults !! "pdOnsetIndex" = Some (AInt (-1))
  ∧ ∀ key, key ∉ ["pdCategory"; "tonguePosition"; "pdOnset"; "pdOnsetIndex"] →
           defaults !! key = None.
Proof.
  unfold default_annotations. intros Hok.
  destruct (last categories) as [c|]; [| done]. rewrite bind_Ok in Hok.
  destruct (last tongue_positions) as [p|]; [| done]. rewrite bind_Ok in Hok.
  injection Hok as <-. exists c, p. split_and!; [done | done | ..].
  - by rewrite lookup_insert_eq.
  - rewrite lookup_insert_ne by done. by rewrite lookup_insert_eq.
  - rewrite !lookup_insert_ne by done. by rewrite lookup_insert_eq.
  - rewrite !lookup_insert_ne by done. by rewrite lookup_singleton_eq.
  - intros key Hkey. rewrite !not_elem_of_cons in Hkey.
    destruct Hkey as (? & ? & ? & ? & _).
    rewrite !lookup_insert_ne by done. by rewrite lookup_singleton_ne.
Qed.

(** X25.  [_add_annotations] resets the four expected annotations of
    every recording to their defaults, the last category, the last
    tongue position, -1.0 and -1, also where the recording came with
    values for them; annotations under other keys are kept. *)
Theorem add_annotations_resets (categories tongue_positions : list string)
    (before after : list (gmap string annotation)) :
  _add_annotations minus_one categories tongue_positions before = Ok after →
  length after = length before
  ∧ ∀ i a, before !! i = Some a →
      ∃ a', after !! i = Some a'
            ∧ a' !! "pdCategory" = AStr <$> last categories
            ∧ a' !! "tonguePosition" = AStr <$> last tongue_positions
            ∧ a' !! "pdOnset" = Some (AFloat minus_one)
            ∧ a' !! "pdOnsetIndex" = Some (AInt (-1))
            ∧ ∀ key, key ∉ ["pdCategory"; "tonguePosition"; "pdOnset";
                            "pdOnsetIndex"] →
                     a' !! key = a !! key.
Proof.
  unfold _add_annotations. revert after.
  induction before as [|a before IH]; intros after.
  { intros [= <-]. split; [done |]. intros i a Ha. done. }
  cbn [mapM_result]. intros Hok.
  destruct (default_annotations minus_one categories tongue_positions)
    as [defaults|] eqn:Hdefaults; [| done].
  rewrite !bind_Ok in Hok.
  destruct (mapM_result _ before) as [after'|]; [| done].
  rewrite bind_Ok in Hok. injection Hok as <-.
  destruct (IH after' eq_refl) as [Hlen Hrest].
  split; [cbn; by rewrite Hlen |]. intros [|i] b Hb; [| by apply Hrest].
  injection Hb as <-. eexists. split; [done |].
  apply default_annotations_Ok in Hdefaults
    as (c & p & -> & -> & H1 & H2 & H3 & H4 & Hother).
  destruct (size a =? 0) eqn:Hsize.
  - apply Nat.eqb_eq, map_size_empty_iff in Hsize as ->.
    split_and!; [done.. |]. intros key Hkey.
    by rewrite Hother, lookup_empty.
  - split_and!; [by apply lookup_union_Some_l.. |].
    intros key Hkey. by rewrite lookup_union_r by by apply Hother.
Qed.

End Annotations.

(** ** The model on concrete inputs *)

Module Examples.
Import Demo ThreeD_UltrasoundRecording.
#[local] Existing Instance opaque_numbers.
#[local] Existing Instance libs.



(** With the frames stored one after the other, the first
    [frame_size * frame_count] bytes that the decoder keeps include the
    padding of the first frame. *)
Example read_3D_ultra_contiguous_buffer :
  ∃ out,
    _read_3D_ultra modality contiguous_volume
    = Ok (loaded modality contiguous_volume out)
    ∧ flat out = [Sample 10; Padding 255; Sample 11; Sample 20].
Proof.
  exists (mk_ndarray [2; 1; 1; 2]
            [Sample 10; Padding 255; Sample 11; Sample 20]).
  split; reflexivity.
Qed.

(** Seven bytes for two frames of four samples are refused. *)
Lemma read_3D_ultra_corrupt_witness :
  ∃ e, _read_3D_ultra modality short_volume = Raise e ∧ CorruptVolume e.
Proof.
  apply (read_3D_ultra_corrupt modality short_volume).
  - reflexivity.
  - left. simpl. lia.
Defined.

(** C4, second half, at a three-region file of another sub-type: the
    call ends in the AttributeError of [.valuex] instead of the exit
    that reports the unknown type. *)
Example getData_unknown_type_raises_AttributeError :
  _getData (fun _ => Ok doppler) modality = Raise (AttributeError "valuex")
  ∧ _getData (fun _ => Ok doppler) modality ≠ Raise SystemExit.
Proof. split; [reflexivity | discriminate]. Qed.


(** A loaded modality refuses a second tensor. *)
Lemma data_setter_populated_witness :
  data_setter (loaded modality single_frame (mk_ndarray [1; 1; 1; 2] [10; 11]))
              (Some (mk_ndarray [1] [0]))
  = Raise NotImplementedError.
Proof.
  apply (proj1 (data_setter_populated
                  (loaded modality single_frame
                          (mk_ndarray [1; 1; 1; 2] [10; 11])))
               (mk_ndarray [1; 1; 1; 2] [10; 11])).
  reflexivity.
Defined.

(** Releasing a modality is the only assignment that returns. *)
Lemma data_setter_only_None_witness :
  (None : option (ndarray nat)) = None
  ∧ _data (modality : ThreeD_Ultrasound.t nat) = None.
Proof.
  apply (proj2 (proj2 (data_setter_only_None modality)) None modality).
  reflexivity.
Defined.

(** A record without time stamp and file name stops the run. *)
Lemma addMeta_required_keys_witness :
  (addMeta (MetaDict incomplete_record) recording).1 = recording
  ∧ ∃ e, (addMeta (MetaDict incomplete_record) recording).2 = Raise e
         ∧ e = KeyError "filename".
Proof.
  apply (proj1 (addMeta_required_keys incomplete_record recording)).
  exists "date_and_time". split.
  - apply (bool_decide_unpack _). reflexivity.
  - reflexivity.
Defined.

(** The recording of T01, excluded for its missing audio file, stays
    excluded through a metadata merge, the attachment of its modalities
    and an exclusion list that does not name it. *)
Lemma excluded_monotonic_witness :
  Recording.excluded
    (lifetime [Op_addMeta (MetaDict complete_record);
               Op_addModalities disk no_video tt true false false;
               Op_set_exclusions disk (Some "exclude.tsv") [] []]
              recording)
  = true.
Proof. apply excluded_monotonic. reflexivity. Defined.

#[local] Existing Instance pointer.

(** The single frame of [Demo.single_frame] is decoded: two bytes are
    one frame of two samples and no padding. *)
Lemma read_3D_ultra_returns_iff_witness :
  (∃ self', _read_3D_ultra modality single_frame = Ok self')
  ↔ 0 < 1 ∧ ∃ p, 2 = (2 + p) * 1.
Proof.
  apply (read_3D_ultra_returns_iff modality single_frame). reflexivity.
Defined.

(** The tensor of [Demo.contiguous_volume] is made of the first four
    bytes of its buffer. *)
Lemma read_3D_ultra_rearranges_witness :
  ∃ out,
    _read_3D_ultra modality contiguous_volume
    = Ok (loaded modality contiguous_volume out)
    ∧ shape out = [2; 1; 1; 2]
    ∧ well_formed out
    ∧ flat out ≡ₚ [Sample 10; Sample 11; Padding 255; Sample 20].
Proof.
  apply (read_3D_ultra_rearranges modality contiguous_volume 1).
  - reflexivity.
  - simpl. lia.
  - reflexivity.
Defined.



(** A row with a number for its time stamp ends the parse. *)
Lemma meta_token_not_a_string_witness :
  meta_token numbered_row = Raise TypeError
  ∧ ∀ rest, meta_tokens (numbered_row :: rest) = Raise TypeError.
Proof.
  apply (meta_token_not_a_string numbered_row (VInt 20210101)
           (VStr "C:\data\T01.dat")).
  - simpl. lia.
  - reflexivity.
  - reflexivity.
  - reflexivity.
Defined.

(** The record of the retake replaces that of the first take. *)
Lemma addMeta_last_writer_witness :
  (addMeta (MetaDict retake_record)
           (addMeta (MetaDict complete_record) recording).1).1
  = (addMeta (MetaDict retake_record) recording).1
  ∧ (addMeta (MetaDict complete_record)
             (addMeta (MetaDict complete_record) recording).1).1
    = (addMeta (MetaDict complete_record) recording).1.
Proof.
  apply addMeta_last_writer.
  - intros key Hkey. unfold requiredMetaKeys in Hkey.
    repeat (apply elem_of_cons in Hkey as [->|Hkey];
            [eexists; reflexivity |]).
    by apply elem_of_nil in Hkey.
  - intros key Hkey. unfold requiredMetaKeys in Hkey.
    repeat (apply elem_of_cons in Hkey as [->|Hkey];
            [eexists; reflexivity |]).
    by apply elem_of_nil in Hkey.
Defined.

(** The volume of T01 cannot be preloaded. *)
Lemma addModalities_preload_fails_witness :
  ∃ e, addModalities disk no_video tt true true false recording
       = (recording, Raise e).
Proof.
  apply (addModalities_preload_fails disk no_video tt true false recording
           "/data/T01.DCM").
  - reflexivity.
  - discriminate.
Defined.

(** T02 has no volume file on [Demo.disk]. *)
Lemma addModalities_missing_volume_witness :
  excluded (__init__ disk (PStr "/data") "T02" false) = true
  ∧ addModalities disk no_video tt true false false
      (__init__ disk (PStr "/data") "T02" false)
    = (__init__ disk (PStr "/data") "T02" false, Raise (KeyError "ult_file")).
Proof.
  apply (addModalities_missing_volume disk no_video tt true false false false
           (PStr "/data") "T02").
  reflexivity.
Defined.

(** The list of [Demo.disk] names T02. *)
Lemma set_exclusions_from_file_marks_witness :
  ∃ r', (set_exclusions_from_file disk (Some "exclude.tsv") [bare]).1 !! 0
        = Some r'
        ∧ path r' = path bare ∧ basename r' = basename bare
        ∧ meta r' = meta bare ∧ modalities r' = modalities bare
        ∧ (excluded r' = true
           ↔ excluded bare = true
             ∨ ∃ comment, (basename bare :: comment) ∈ [["T02"; "coughing"]]).
Proof.
  apply (proj2 (proj2 (set_exclusions_from_file_marks disk "exclude.tsv"
                         [["T02"; "coughing"]] [bare] eq_refl)) 0 bare).
  reflexivity.
Defined.

(** With INFO switched off the reader returns the names of the list. *)
Lemma read_file_exclusion_list_agrees_witness :
  set_exclusions_from_file disk (Some "exclude.tsv") [bare]
  = ((λ recording,
        if bool_decide (basename recording ∈ ["T02"])
        then exclude recording else recording) <$> [bare], Ok tt)
  ∧ (is_Some (Some "exclude.tsv") → false = false).
Proof.
  apply (read_file_exclusion_list_agrees disk false (Some "exclude.tsv")
           ["T02"] [bare]).
  reflexivity.
Defined.

(** A list that ends with a blank line. *)
Lemma read_file_exclusion_list_blank_row_witness :
  read_file_exclusion_list (listing [["T02"; "coughing"]; []]) false
                           (Some "exclude.tsv")
  = Raise IndexError
  ∧ (set_exclusions_from_file (listing [["T02"; "coughing"]; []])
                              (Some "exclude.tsv") [bare]).2
    = Ok tt.
Proof.
  apply (read_file_exclusion_list_blank_row
           (listing [["T02"; "coughing"]; []]) false "exclude.tsv"
           [["T02"; "coughing"]; []] [bare]).
  - reflexivity.
  - apply (bool_decide_unpack _). reflexivity.
Defined.

(** A press on a line, a motion and a release on [Demo.tier]. *)
Lemma animation_never_raises_witness :
  (BoundaryAnimator.deliver_all tier
     [(0, BoundaryAnimator.button_press_event, (Some 0, true));
      (0, BoundaryAnimator.motion_notify_event, (Some 1, false));
      (0, BoundaryAnimator.button_release_event, (None, false))]).2
  = Ok tt.
Proof.
  refine (proj1 (animation_never_raises tier _ _)).
  intros me self Hself. destruct me as [|me]; [| destruct me; discriminate].
  injection Hself as <-. split.
  - repeat constructor; discriminate.
  - split; reflexivity.
Defined.

(** A motion of the animator [Demo.held]. *)
Lemma on_motion_moves_all_witness :
  (BoundaryAnimator.on_motion 0 (Some 1, false) (Some 0) held).2 = Ok tt.
Proof.
  refine (proj1 (on_motion_moves_all 0 (Some 1, false) held [tt; tt] tt tt
                   eq_refl eq_refl _ eq_refl)).
  simpl. lia.
Defined.

(** Next on the first of the two recordings of [Demo.annotator]. *)
Lemma next_releases_volume_witness :
  ∃ u',
    _data u' = None
    ∧ Pd3dQtAnnotator.next still still keep_video annotator
      = Pd3dQtAnnotator.redraw still still
          (Pd3dQtAnnotator.mk 1 2
             [Recording.mk (excluded attached) (path attached)
                (basename attached) (meta attached)
                (<["ThreeD_Ultrasound" := Ultrasound u']>
                   (modalities attached));
              attached]).
Proof.
  refine (proj1 (next_releases_volume still still keep_video annotator 0
                   attached eq_refl eq_refl _) unloaded eq_refl).
  reflexivity.
Defined.

(** Go to recording 3 of 2. *)
Lemma go_to_recording_range_witness :
  Pd3dQtAnnotator.current
    (Pd3dQtAnnotator.go_to_recording still still keep_video (Ok 3%Z)
                                     annotator).1
  = Raise IndexError.
Proof.
  refine (proj2 (proj2 (go_to_recording_range still still keep_video
                          annotator 3 eq_refl _)) eq_refl eq_refl).
  simpl. lia.
Defined.

(** A recording categorised as Stable is Not set again. *)
Lemma add_annotations_resets_witness :
  ∃ a', reset !! 0 = Some a'
        ∧ a' !! "pdCategory" = Pd3dQtAnnotator.AStr <$> last categories
        ∧ a' !! "tonguePosition"
          = Pd3dQtAnnotator.AStr <$> last tongue_positions
        ∧ a' !! "pdOnset" = Some (Pd3dQtAnnotator.AFloat tt)
        ∧ a' !! "pdOnsetIndex" = Some (Pd3dQtAnnotator.AInt (-1))
        ∧ ∀ key, key ∉ ["pdCategory"; "tonguePosition"; "pdOnset";
                        "pdOnsetIndex"] →
                 a' !! key = categorised !! key.
Proof.
  refine (proj2 (add_annotations_resets tt categories tongue_positions
                   [categorised] reset eq_refl) 0 categorised eq_refl).
Defined.

End Examples.
